(** * koa-ts: the request/response consistency rules, embedded in Rocq

    The development follows the two facade classes of the repository,
    [Responce] (status / header / body state machine) and [Request]
    (derived read-only properties: [get], [protocol], [host], [href],
    [hostname], the memoized [URL], content negotiation), together with
    [only] and [getType] of [common.ts].

    Conventions of the embedding.
    - A JavaScript string is represented by the bytes of its UTF-8
      encoding (a Rocq [string]); [Buffer.byteLength] is then the length of
      that byte sequence.
    - JavaScript values that reach the facades ([any]-typed body, header
      arguments) are the inductive type [Value]; numbers are rationals
      extended with NaN and the two infinities.
    - Every method is a computation in the monad [M]: it threads the whole
      per-request store [World] and may throw; a store mutated before a
      throw stays mutated, as in JavaScript.
    - The mutually recursive setters [status] and [body] are defined with a
      recursion budget; [Fuel] shows that the budget used is never
      exhausted. *)

From Stdlib Require Import ZArith QArith String Ascii List.
From Stdlib Require Import DecimalString DecimalPos DecimalZ.
From stdpp Require Import base gmap strings list.

Set Warnings "-register-all".

Local Open Scope string_scope.
Local Open Scope Z_scope.

(** ** JavaScript strings *)

Module Js.

Definition lower_ascii (c : ascii) : ascii :=
  let n := N_of_ascii c in
  if ((65 <=? n) && (n <=? 90))%N then ascii_of_N (n + 32) else c.

(** [String.prototype.toLowerCase], on the ASCII letters (header names are
    ASCII tokens). *)
Fixpoint toLowerCase (s : string) : string :=
  match s with
  | EmptyString => EmptyString
  | String c r => String (lower_ascii c) (toLowerCase r)
  end.

Definition byte_is (c : ascii) (n : N) : bool := (N_of_ascii c =? n)%N.

(** One-byte members of the regular-expression class [\s]:
    TAB, LF, VT, FF, CR, SPACE. *)
Definition space1 (c : ascii) : bool :=
  let n := N_of_ascii c in ((9 <=? n) && (n <=? 13) || (n =? 32))%N.

(** U+00A0, encoded C2 A0. *)
Definition space2 (c1 c2 : ascii) : bool :=
  byte_is c1 0xC2 && byte_is c2 0xA0.

(** The three-byte members of [\s]: U+1680, U+2000..U+200A, U+2028, U+2029,
    U+202F, U+205F, U+3000, U+FEFF. *)
Definition space3 (c1 c2 c3 : ascii) : bool :=
  let n3 := N_of_ascii c3 in
  (byte_is c1 0xE1 && byte_is c2 0x9A && byte_is c3 0x80)
  || (byte_is c1 0xE2 && byte_is c2 0x80
      && (((0x80 <=? n3) && (n3 <=? 0x8A)) || (n3 =? 0xA8) || (n3 =? 0xA9)
          || (n3 =? 0xAF))%N)
  || (byte_is c1 0xE2 && byte_is c2 0x81 && byte_is c3 0x9F)
  || (byte_is c1 0xE3 && byte_is c2 0x80 && byte_is c3 0x80)
  || (byte_is c1 0xEF && byte_is c2 0xBB && byte_is c3 0xBF).

(** The remainder of [s] after the longest match of [\s*] at its start. *)
Fixpoint skip_space (s : string) : string :=
  match s with
  | EmptyString => s
  | String c1 r1 =>
    if space1 c1 then skip_space r1 else
    match r1 with
    | EmptyString => s
    | String c2 r2 =>
      if space2 c1 c2 then skip_space r2 else
      match r2 with
      | EmptyString => s
      | String c3 r3 => if space3 c1 c2 c3 then skip_space r3 else s
      end
    end
  end.

Definition starts_with (c : ascii) (s : string) : bool :=
  match s with
  | String d _ => Ascii.eqb c d
  | EmptyString => false
  end.

(** [/^\s*</.test(s)] *)
Definition test_leading_lt (s : string) : bool :=
  starts_with "<" (skip_space s).

(** [s.split(sep, 1)[0]] for a one-character separator: the text before
    the first occurrence of [sep] (all of [s] when there is none). *)
Fixpoint split_first (sep : ascii) (s : string) : string :=
  match s with
  | EmptyString => EmptyString
  | String c r => if Ascii.eqb c sep then EmptyString
                  else String c (split_first sep r)
  end.

(** [s.split(/\s*,\s*/, 1)[0]]: the text before the leftmost position at
    which [\s*,] matches. *)
Fixpoint split_comma_first (s : string) : string :=
  match s with
  | EmptyString => EmptyString
  | String c r =>
    if starts_with "," (skip_space s) then EmptyString
    else String c (split_comma_first r)
  end.

Fixpoint join (sep : string) (l : list string) : string :=
  match l with
  | [] => ""
  | [x] => x
  | x :: r => x +:+ sep +:+ join sep r
  end.

(** Decimal digits. *)
Definition digit_of (c : ascii) : option (Decimal.uint → Decimal.uint) :=
  let n := N_of_ascii c in
  if (n =? 48)%N then Some Decimal.D0 else
  if (n =? 49)%N then Some Decimal.D1 else
  if (n =? 50)%N then Some Decimal.D2 else
  if (n =? 51)%N then Some Decimal.D3 else
  if (n =? 52)%N then Some Decimal.D4 else
  if (n =? 53)%N then Some Decimal.D5 else
  if (n =? 54)%N then Some Decimal.D6 else
  if (n =? 55)%N then Some Decimal.D7 else
  if (n =? 56)%N then Some Decimal.D8 else
  if (n =? 57)%N then Some Decimal.D9 else None.

(** The longest prefix of decimal digits of [s]. *)
Fixpoint digits_prefix (s : string) : Decimal.uint :=
  match s with
  | EmptyString => Decimal.Nil
  | String c r =>
    match digit_of c with
    | Some d => d (digits_prefix r)
    | None => Decimal.Nil
    end
  end.

Definition parse_unsigned (s : string) : option Z :=
  match digits_prefix s with
  | Decimal.Nil => None
  | d => Some (Z.of_uint d)
  end.

(** [parseInt(s, 10)]; [None] is NaN.  Leading white space is skipped, one
    sign is accepted, then the longest run of digits is read. *)
Definition parseInt (s : string) : option Z :=
  match skip_space s with
  | String "-" r => Z.opp <$> parse_unsigned r
  | String "+" r => parse_unsigned r
  | t => parse_unsigned t
  end.

(** The test of the [etag] setter, a regular expression anchored at the
    start: [s] starts with a double quote, or with [W/] and a double
    quote. *)
Definition test_etag_quoted (s : string) : bool :=
  starts_with "034" s
  || match s with
     | String "W" (String "/" r) => starts_with "034" r
     | _ => false
     end.

(** [/^https?:\/\//i.test(s)] *)
Definition test_http_scheme (s : string) : bool :=
  let l := toLowerCase s in
  String.prefix "http://" l || String.prefix "https://" l.

End Js.

(** ** JavaScript values *)

Inductive number :=
| Finite (q : Q)
| NaN
| Infinity (negative : bool).

Definition of_Z (z : Z) : number := Finite (inject_Z z).
Definition of_nat (n : nat) : number := of_Z (Z.of_nat n).

(** [Number.isInteger] *)
Definition Number_isInteger (n : number) : bool :=
  match n with
  | Finite q => Qnum q mod Z.pos (Qden q) =? 0
  | _ => false
  end.

(** The integer an integral number denotes. *)
Definition to_Z (n : number) : Z :=
  match n with
  | Finite q => Qnum q / Z.pos (Qden q)
  | _ => 0
  end.

(** [n >= k] and [n <= k] for an integer literal [k]. *)
Definition number_ge (n : number) (k : Z) : bool :=
  match n with
  | Finite q => k * Z.pos (Qden q) <=? Qnum q
  | NaN => false
  | Infinity neg => negb neg
  end.

Definition number_le (n : number) (k : Z) : bool :=
  match n with
  | Finite q => Qnum q <=? k * Z.pos (Qden q)
  | NaN => false
  | Infinity neg => neg
  end.

Inductive Value :=
| VUndefined
| VNull
| VBool (b : bool)
| VNumber (n : number)
| VString (s : string)
| VBuffer (bytes : list Byte.byte)
| VStream (id : nat)
| VObject (id : nat)
| VArray (items : list Value).

(** [v == null] *)
Definition nullish (v : Value) : bool :=
  match v with
  | VUndefined | VNull => true
  | _ => false
  end.

(** [v === null] *)
Definition is_null (v : Value) : bool :=
  match v with
  | VNull => true
  | _ => false
  end.

(** ToBoolean, as used by [if (v)] and [v && ...]. *)
Definition truthy (v : Value) : bool :=
  match v with
  | VUndefined | VNull => false
  | VBool b => b
  | VNumber (Finite q) => negb (Qnum q =? 0)
  | VNumber NaN => false
  | VNumber (Infinity _) => true
  | VString s => negb (String.eqb s "")
  | VBuffer _ | VStream _ | VObject _ | VArray _ => true
  end.

(** [a !== b] when [b] is a stream: streams are compared by identity. *)
Definition differs_from_stream (a : Value) (id : nat) : bool :=
  match a with
  | VStream i => negb (Nat.eqb i id)
  | _ => true
  end.

(** Header values held by the outgoing message: one string, or several. *)
Inductive HeaderValue :=
| HStr (s : string)
| HArr (l : list string).

(** ** The store

    One request/response cycle owns one outgoing message [res], one
    incoming message [req], the two facades and the application settings;
    the facades only hold references to [res] and [req], so the store keeps
    a single copy of each. *)

Record ServerResponse := {
  statusCode : Z;
  statusMessage : option string;
  (** the header table, keyed by lower-cased name *)
  outHeaders : gmap string HeaderValue;
  headersSent : bool;
  (** streams handed to [onFinish(res, destroy.bind(null, stream))] *)
  finishListeners : list nat
}.

Record Socket := { encrypted : bool; remoteAddress : string }.

Record IncomingMessage := {
  headers : gmap string string;
  httpVersionMajor : Z;
  socket : option Socket
}.

Record Application := { proxy : bool }.

Record UrlRecord := { href : string; hostname : string }.

(** What the memoized [URL] slot can refer to: a parsed WHATWG URL, or the
    empty object made by [Object.create(null)]. *)
Inductive UrlObject :=
| ParsedURL (u : UrlRecord)
| EmptyObject.

(** The negotiator held in [_accept]: the one built by [accepts(req)], which
    reads the request it was built from, or an object installed through
    the [accept] setter. *)
Inductive Negotiator :=
| AcceptsReq
| AcceptsCustom (types : list string → option string).

Record ResponceState := {
  _explicitStatus : bool;
  _explicitNullBody : bool;
  _body : Value
}.

Record RequestState := {
  originalUrl : string;
  (** address in [heap] of the memoized URL object, when there is one *)
  memoizedURL : option nat;
  _accept : option Negotiator
}.

(** Modelled from the spec: the bounded least-recently-used cache behind
    the MIME lookup ("bounded cache (capacity 100 entries) keyed by the raw
    type hint"); the package implementing it is not part of the
    repository.  Entries are kept most recently used first; a stored
    [false] is [None]. *)
Record LRU := {
  lru_max : nat;
  lru_entries : list (string * option string)
}.

Record World := {
  res : ServerResponse;
  req : IncomingMessage;
  app : Application;
  response : ResponceState;
  request : RequestState;
  (** [typeLRUCache] of common.ts *)
  typeLRUCache : LRU;
  (** objects allocated by the [URL] getter, by address *)
  heap : list UrlObject;
  (** streams on which the body setter registered an error handler *)
  errorHandlers : list nat
}.

(** ** Imported packages

    The packages the classes import are not part of the repository; they
    are taken as parameters. *)
Inductive Exn :=
| AssertionError (msg : string)
| TypeError (msg : string)
| ReferenceError (msg : string).

Class Imports := {
  (** [statuses[code]], [statuses.empty[code]], [statuses.redirect[code]] *)
  statuses : Z → option string;
  statuses_empty : Z → bool;
  statuses_redirect : Z → bool;
  (** [mimeTypes.contentType(type)]; [None] is [false] *)
  mime_contentType : string → option string;
  (** [escape], which [redirect] calls without importing it: the global
      function of that name *)
  escape : string → string;
  (** [vary(res, field)]: the outgoing message after the call, or the
      exception the package throws *)
  vary_pkg : ServerResponse → string → Exn + ServerResponse;
  (** [accepts(req).types(...)]; [None] is [false] *)
  accepts_types : IncomingMessage → list string → option string;
  (** [new URL(s)]; [None] when the constructor throws *)
  URL_new : string → option UrlRecord;
  (** [JSON.stringify], and [String] on the values not printed below *)
  JSON_stringify : Value → string;
  String_other : Value → string
}.

(** [String(n)] for a number. *)
Definition String_number `{Imports} (n : number) : string :=
  match n with
  | Finite q =>
    if Number_isInteger n then NilZero.string_of_int (Z.to_int (to_Z n))
    else String_other (VNumber n)
  | NaN => "NaN"
  | Infinity false => "Infinity"
  | Infinity true => "-Infinity"
  end.

(** [String(v)] *)
Fixpoint String_ `{Imports} (v : Value) : string :=
  match v with
  | VUndefined => "undefined"
  | VNull => "null"
  | VBool true => "true"
  | VBool false => "false"
  | VNumber n => String_number n
  | VString s => s
  | VArray l =>
    Js.join "," (map (λ x, if nullish x then "" else String_ x) l)
  | VBuffer _ | VStream _ | VObject _ => String_other v
  end.

(** ** Store updates *)

Definition with_res (f : ServerResponse → ServerResponse) (w : World) : World :=
  {| res := f (res w); req := req w; app := app w; response := response w;
     request := request w; typeLRUCache := typeLRUCache w; heap := heap w;
     errorHandlers := errorHandlers w |}.

Definition with_response (f : ResponceState → ResponceState) (w : World) : World :=
  {| res := res w; req := req w; app := app w; response := f (response w);
     request := request w; typeLRUCache := typeLRUCache w; heap := heap w;
     errorHandlers := errorHandlers w |}.

Definition with_request (f : RequestState → RequestState) (w : World) : World :=
  {| res := res w; req := req w; app := app w; response := response w;
     request := f (request w); typeLRUCache := typeLRUCache w; heap := heap w;
     errorHandlers := errorHandlers w |}.

Definition with_cache (f : LRU → LRU) (w : World) : World :=
  {| res := res w; req := req w; app := app w; response := response w;
     request := request w; typeLRUCache := f (typeLRUCache w); heap := heap w;
     errorHandlers := errorHandlers w |}.

Definition with_heap (f : list UrlObject → list UrlObject) (w : World) : World :=
  {| res := res w; req := req w; app := app w; response := response w;
     request := request w; typeLRUCache := typeLRUCache w; heap := f (heap w);
     errorHandlers := errorHandlers w |}.

Definition with_errorHandlers (f : list nat → list nat) (w : World) : World :=
  {| res := res w; req := req w; app := app w; response := response w;
     request := request w; typeLRUCache := typeLRUCache w; heap := heap w;
     errorHandlers := f (errorHandlers w) |}.

Definition set_statusCode (c : Z) (r : ServerResponse) : ServerResponse :=
  {| statusCode := c; statusMessage := statusMessage r;
     outHeaders := outHeaders r; headersSent := headersSent r;
     finishListeners := finishListeners r |}.

Definition set_statusMessage (m : option string) (r : ServerResponse) : ServerResponse :=
  {| statusCode := statusCode r; statusMessage := m;
     outHeaders := outHeaders r; headersSent := headersSent r;
     finishListeners := finishListeners r |}.

Definition with_outHeaders (f : gmap string HeaderValue → gmap string HeaderValue)
    (r : ServerResponse) : ServerResponse :=
  {| statusCode := statusCode r; statusMessage := statusMessage r;
     outHeaders := f (outHeaders r); headersSent := headersSent r;
     finishListeners := finishListeners r |}.

Definition add_finishListener (id : nat) (r : ServerResponse) : ServerResponse :=
  {| statusCode := statusCode r; statusMessage := statusMessage r;
     outHeaders := outHeaders r; headersSent := headersSent r;
     finishListeners := finishListeners r ++ [id] |}.

Definition set_explicitStatus (b : bool) (r : ResponceState) : ResponceState :=
  {| _explicitStatus := b; _explicitNullBody := _explicitNullBody r;
     _body := _body r |}.

Definition set_explicitNullBody (b : bool) (r : ResponceState) : ResponceState :=
  {| _explicitStatus := _explicitStatus r; _explicitNullBody := b;
     _body := _body r |}.

Definition set__body (v : Value) (r : ResponceState) : ResponceState :=
  {| _explicitStatus := _explicitStatus r;
     _explicitNullBody := _explicitNullBody r; _body := v |}.

Definition set_memoizedURL (a : option nat) (r : RequestState) : RequestState :=
  {| originalUrl := originalUrl r; memoizedURL := a; _accept := _accept r |}.

Definition set__accept (n : option Negotiator) (r : RequestState) : RequestState :=
  {| originalUrl := originalUrl r; memoizedURL := memoizedURL r; _accept := n |}.

(** ** The monad of methods *)

Inductive Result (A : Type) :=
| Ok (a : A)
| Throw (e : Exn)
| OutOfFuel.
Arguments Ok {A} a.
Arguments Throw {A} e.
Arguments OutOfFuel {A}.

Definition M (A : Type) : Type := World → Result A * World.

Definition ret {A} (a : A) : M A := λ w, (Ok a, w).

(** What a computation that ended in [r] continues with. *)
Definition bind_result {A B} (r : Result A * World) (f : A → M B)
    : Result B * World :=
  match r with
  | (Ok a, w') => f a w'
  | (Throw e, w') => (Throw e, w')
  | (OutOfFuel, w') => (OutOfFuel, w')
  end.

Definition bind {A B} (m : M A) (f : A → M B) : M B := λ w,
  bind_result (m w) f.

Declare Scope M_scope.
Delimit Scope M_scope with M.
Notation "x ← y ; z" := (bind y (λ x, z))
  (at level 20, y at level 100, z at level 200, only parsing) : M_scope.
Notation "x ;; z" := (bind x (λ _, z))
  (at level 100, z at level 200, only parsing, right associativity) : M_scope.
Local Open Scope M_scope.

Definition throw {A} (e : Exn) : M A := λ w, (Throw e, w).
Definition out_of_fuel {A} : M A := λ w, (OutOfFuel, w).
Definition gets {A} (f : World → A) : M A := λ w, (Ok (f w), w).
Definition modify (f : World → World) : M unit := λ w, (Ok tt, f w).

(** [try { m } catch (err) { h }] *)
Definition try_catch {A} (m : M A) (h : M A) : M A := λ w,
  match m w with
  | (Throw _, w') => h w'
  | r => r
  end.

(** Evaluating an identifier that nothing in scope binds: no import, no
    declaration and no global of that name. *)
Definition unbound {A} (name : string) : M A :=
  throw (ReferenceError (name +:+ " is not defined")).

(** [assert(cond, msg)] *)
Definition assert (cond : bool) (msg : string) : M unit :=
  if cond then ret tt else throw (AssertionError msg).

(** [a || b] on strings that may be [undefined]. *)
Definition nonempty (s : string) : bool := negb (String.eqb s "").

Definition or_else (a : option string) (b : string) : string :=
  match a with
  | Some s => if nonempty s then s else b
  | None => b
  end.

(** Truthiness of a value that is a string or [false] / [undefined]. *)
Definition truthy_str (m : option string) : bool :=
  match m with
  | Some s => nonempty s
  | None => false
  end.

Definition quot : string := String "034"%char EmptyString.

(** ** common.ts *)

Module Common.

Fixpoint assoc (k : string) (l : list (string * option string))
    : option (option string) :=
  match l with
  | [] => None
  | (k', v) :: r => if String.eqb k' k then Some v else assoc k r
  end.

Definition without (k : string) (l : list (string * option string)) :=
  List.filter (λ e, negb (String.eqb (fst e) k)) l.

(** [cache.get(key)]: the stored value ([None] for a miss as for a stored
    [false]); a hit becomes the most recently used entry. *)
Definition LRU_get (k : string) (c : LRU) : option string * LRU :=
  match assoc k (lru_entries c) with
  | Some v => (v, {| lru_max := lru_max c;
                     lru_entries := (k, v) :: without k (lru_entries c) |})
  | None => (None, c)
  end.

(** [cache.set(key, value)]: the entry becomes the most recently used one
    and the least recently used entries beyond the capacity are dropped. *)
Definition LRU_set (k : string) (v : option string) (c : LRU) : LRU :=
  {| lru_max := lru_max c;
     lru_entries := take (lru_max c) ((k, v) :: without k (lru_entries c)) |}.

(** [new LRU(100)] *)
Definition LRU_new : LRU := {| lru_max := 100; lru_entries := [] |}.

(** [only(obj, keys)].  The object read from is given by its property
    read [obj[key]], own or inherited; the object built is given by the
    table of its own properties.  An assignment [ret[key] = v] defines an
    own property for every key but [__proto__]: that one is the accessor
    inherited from [Object.prototype], which replaces the prototype when
    [v] is an object and does nothing for a primitive [v].  Once the
    prototype is replaced the result is no longer described by a table. *)
Inductive Picked :=
| Table (own : gmap string Value)
| Reparented.

(** [typeof v === "object" || typeof v === "function"], for a [v] that is
    not null. *)
Definition is_object (v : Value) : bool :=
  match v with
  | VBuffer _ | VStream _ | VObject _ | VArray _ => true
  | _ => false
  end.

(** [ret[key] = v; return ret] *)
Definition assign (key : string) (v : Value) (ret : Picked) : Picked :=
  match ret with
  | Table own =>
    if String.eqb key "__proto__"
    then if is_object v then Reparented else ret
    else Table (<[key := v]> own)
  | Reparented => Reparented
  end.

Definition only (obj : string → Value) (keys : list string) : Picked :=
  fold_left (λ ret key, if nullish (obj key) then ret
                        else assign key (obj key) ret)
            keys (Table ∅).

Section Methods.
Context `{Imports}.

Definition getType (type : string) : M (option string) :=
  mimeType ← (λ w, let (v, c) := LRU_get type (typeLRUCache w) in
                   (Ok v, with_cache (λ _, c) w));
  if negb (truthy_str mimeType) then
    let mimeType := mime_contentType type in
    modify (with_cache (LRU_set type mimeType));;
    ret mimeType
  else ret mimeType.

End Methods.
End Common.

(** ** The request facade (part_001) *)

Module Request.
Section Methods.
Context `{Imports}.

Definition get (field : string) : M string :=
  hs ← gets (λ w, headers (req w));
  let field := Js.toLowerCase field in
  if String.eqb field "referer" || String.eqb field "referrer" then
    ret (or_else (hs !! "referrer") (or_else (hs !! "referer") ""))
  else ret (or_else (hs !! field) "").

Definition socket_ : M Socket :=
  s ← gets (λ w, socket (req w));
  match s with
  | Some sock => ret sock
  | None => throw (TypeError "Cannot read properties of undefined")
  end.

Definition protocol : M string :=
  sock ← socket_;
  if encrypted sock then ret "https" else
  p ← gets (λ w, proxy (app w));
  if negb p then ret "http" else
  proto ← get "X-Forwarded-Proto";
  ret (if nonempty proto then Js.split_comma_first proto else "http").

Definition host : M string :=
  p ← gets (λ w, proxy (app w));
  host ← (if p then get "X-Forwarded-Host" else ret "");
  host ← (if nonempty host then ret host else
          major ← gets (λ w, httpVersionMajor (req w));
          host ← (if 2 <=? major then get ":authority" else ret host);
          if nonempty host then ret host else get "Host");
  if nonempty host then ret (Js.split_comma_first host) else ret "".

Definition origin : M string :=
  p ← protocol;
  h ← host;
  ret (p +:+ "://" +:+ h).

(** Allocation of a fresh object; its address is returned. *)
Definition alloc (o : UrlObject) : M nat := λ w,
  (Ok (length (heap w)), with_heap (λ h, (h ++ [o])%list) w).

(** The [URL] getter.  The result is the reference held in [memoizedURL]. *)
Definition URL : M (option nat) :=
  m ← gets (λ w, memoizedURL (request w));
  match m with
  | Some _ => ret m
  | None =>
    originalUrl ← gets (λ w, or_else (Some (originalUrl (request w))) "");
    try_catch
      (o ← origin;
       match URL_new (o +:+ originalUrl) with
       | Some u =>
         a ← alloc (ParsedURL u);
         modify (with_request (set_memoizedURL (Some a)))
       | None => throw (TypeError "Invalid URL")
       end)
      (a ← alloc EmptyObject;
       modify (with_request (set_memoizedURL (Some a))));;
    gets (λ w, memoizedURL (request w))
  end.

(** The [accept] getter: lazily built, then kept. *)
Definition accept : M Negotiator :=
  a ← gets (λ w, _accept (request w));
  match a with
  | Some n => ret n
  | None =>
    modify (with_request (set__accept (Some AcceptsReq)));;
    ret AcceptsReq
  end.

Definition accepts (args : list string) : M (option string) :=
  n ← accept;
  match n with
  | AcceptsReq => r ← gets req; ret (accepts_types r args)
  | AcceptsCustom types => ret (types args)
  end.

(** The [accept] setter. *)
Definition set_accept (obj : Negotiator) : M unit :=
  modify (with_request (set__accept (Some obj))).

(** The [secure] getter. *)
Definition secure : M bool :=
  p ← protocol;
  ret (String.eqb p "https").

(** The [href] getter. *)
Definition href : M string :=
  originalUrl ← gets (λ w, originalUrl (request w));
  (* support: `GET http://example.com/foo` *)
  if Js.test_http_scheme originalUrl then ret originalUrl else
  o ← origin;
  ret (o +:+ originalUrl).

(** The [hostname] getter.  The memoized URL object is read from the heap;
    the empty object has no [hostname]. *)
Definition hostname : M string :=
  host ← host;
  if negb (nonempty host) then ret "" else
  (* IPv6 *)
  if Js.starts_with "[" host then
    a ← URL;
    match a with
    | Some a =>
      h ← gets heap;
      ret (match h !! a with
           | Some (ParsedURL u) => or_else (Some (hostname u)) ""
           | _ => ""
           end)
    | None => throw (TypeError "Cannot read properties of undefined")
    end
  else ret (Js.split_first ":" host).

(** The [type] getter of the request. *)
Definition type : M string :=
  t ← get "Content-Type";
  if negb (nonempty t) then ret "" else ret (Js.split_first ";" t).

End Methods.
End Request.

(** Modelled from the spec: the context object is not among the sources;
    it "aggregates exactly one RequestFacade and one ResponseFacade" and
    exposes "delegated shorthand accessors", so [ctx.get] and [ctx.accepts]
    are the request's. *)
Module Context.
Section Methods.
Context `{Imports}.

Definition get (field : string) : M string := Request.get field.
Definition accepts (args : list string) : M (option string) :=
  Request.accepts args.

End Methods.
End Context.

(** ** The response facade (part_000) *)

Module Responce.
Section Methods.
Context `{Imports}.

Definition headerSent : M bool := gets (λ w, headersSent (res w)).

Definition status : M Z := gets (λ w, statusCode (res w)).

Definition body : M Value := gets (λ w, _body (response w)).

(** [res.getHeader], [res.hasHeader]: the name is matched lower-cased. *)
Definition get (field : string) : M (option HeaderValue) :=
  gets (λ w, outHeaders (res w) !! Js.toLowerCase field).

Definition has (field : string) : M bool :=
  gets (λ w, match outHeaders (res w) !! Js.toLowerCase field with
             | Some _ => true
             | None => false
             end).

(** The value [set] hands to [res.setHeader]: array elements and scalars
    that are not strings go through [String]. *)
Definition coerce (val : Value) : HeaderValue :=
  match val with
  | VArray l =>
    HArr (map (λ v, match v with VString s => s | _ => String_ v end) l)
  | VString s => HStr s
  | _ => HStr (String_ val)
  end.

(** [set(field, val)].  [res.setHeader] is the table update it performs
    for a field name that is an HTTP token and a value without control
    characters; the statements that let the caller choose the name or the
    value assume as much. *)
Definition set (field : string) (val : Value) : M unit :=
  sent ← headerSent;
  if sent then ret tt else
  modify (with_res (with_outHeaders (insert (Js.toLowerCase field) (coerce val)))).

Fixpoint for_in (fields : list (string * Value)) (f : string → Value → M unit)
    : M unit :=
  match fields with
  | [] => ret tt
  | (key, val) :: r => f key val;; for_in r f
  end.

(** [set(fields)], the one-argument form taking an object of header
    fields. *)
Definition set_object (fields : list (string * Value)) : M unit :=
  sent ← headerSent;
  if sent then ret tt else
  for_in fields set.

Definition remove (field : string) : M unit :=
  sent ← headerSent;
  if sent then ret tt else
  modify (with_res (with_outHeaders (delete (Js.toLowerCase field)))).

Definition vary (field : string) : M unit :=
  sent ← headerSent;
  if sent then ret tt else
  λ w, match vary_pkg (res w) field with
       | inl e => (Throw e, w)
       | inr r => (Ok tt, with_res (λ _, r) w)
       end.

(** The [type] getter. *)
Definition type : M string :=
  t ← get "Content-Type";
  match t with
  | None => ret ""
  | Some (HStr s) => if nonempty s then ret (Js.split_first ";" s) else ret ""
  | Some (HArr _) => throw (TypeError "type.split is not a function")
  end.

(** The [type] setter. *)
Definition set_type (type : string) : M unit :=
  type ← Common.getType type;
  if truthy_str type then set "Content-Type" (VString (default "" type))
  else remove "Content-Type".

(** The [length] setter. *)
Definition set_length (n : number) : M unit :=
  te ← has "Transfer-Encoding";
  if negb te then set "Content-Length" (VNumber n) else ret tt.

Definition header_text (v : option HeaderValue) : string :=
  match v with
  | Some (HStr s) => s
  | Some (HArr l) => Js.join "," l
  | None => "undefined"
  end.

Definition is_stream (v : Value) : bool :=
  match v with
  | VStream _ => true
  | _ => false
  end.

(** The [length] getter; [None] is [undefined]. *)
Definition length : M (option number) :=
  cl ← has "Content-Length";
  if cl then
    v ← get "Content-Length";
    ret (Some (of_Z (default 0 (Js.parseInt (header_text v)))))
  else
    body ← body;
    if negb (truthy body) || is_stream body then ret None else
    match body with
    | VString s => ret (Some (of_nat (String.length s)))
    | VBuffer bytes => ret (Some (of_nat (List.length bytes)))
    | _ => ret (Some (of_nat (String.length (JSON_stringify body))))
    end.

(** The tail of the "no content" branch of the body setter. *)
Definition no_content (val : Value) : M unit :=
  (if is_null val then modify (with_response (set_explicitNullBody true))
   else ret tt);;
  remove "Content-Type";;
  remove "Content-Length";;
  remove "Transfer-Encoding".

(** The [status] and [body] setters call each other.  Each is first
    written with the setter it calls as a parameter: [assign_body_null] is
    [this.body = null] in the status setter, [assign_status] is
    [this.status = ...] in the body setter. *)
Definition status_code (assign_body_null : M unit) (code : number) : M unit :=
  sent ← headerSent;
  if sent then ret tt else
  assert (Number_isInteger code) "status code must be a number";;
  assert (number_ge code 100 && number_le code 999)
         ("invalid status code: " +:+ String_number code);;
  modify (with_response (set_explicitStatus true));;
  modify (with_res (set_statusCode (to_Z code)));;
  major ← gets (λ w, httpVersionMajor (req w));
  (if major <? 2
   then modify (with_res (set_statusMessage (statuses (to_Z code))))
   else ret tt);;
  b ← body;
  if truthy b && statuses_empty (to_Z code)
  then assign_body_null
  else ret tt.

(** The blocks of the body setter for a body that is not null: "set the
    status", then one of "string", "buffer", "stream", "json". *)
Definition default_status (assign_status : number → M unit) : M unit :=
  explicit ← gets (λ w, _explicitStatus (response w));
  if negb explicit then assign_status (of_Z 200) else ret tt.

Definition string_body (setType : bool) (s : string) : M unit :=
  (if setType
   then set_type (if Js.test_leading_lt s then "html" else "text")
   else ret tt);;
  set_length (of_nat (String.length s)).

Definition buffer_body (setType : bool) (bytes : list Byte.byte) : M unit :=
  (if setType then set_type "bin" else ret tt);;
  set_length (of_nat (List.length bytes)).

Definition stream_body (setType : bool) (original : Value) (id : nat)
    : M unit :=
  modify (with_res (add_finishListener id));;
  (if differs_from_stream original id then
     modify (with_errorHandlers (λ l, (l ++ [id])%list));;
     (* overwriting *)
     if negb (nullish original) then remove "Content-Length" else ret tt
   else ret tt);;
  if setType then set_type "bin" else ret tt.

Definition json_body : M unit :=
  remove "Content-Length";;
  set_type "json".

Definition body_value (assign_status : number → M unit) (val : Value) : M unit :=
  original ← body;
  modify (with_response (set__body val));;
  if nullish val then
    (* no content *)
    st ← status;
    if negb (statuses_empty st) then
      t ← type;
      if String.eqb t "application/json"
      then modify (with_response (set__body (VString "null")))
      else (assign_status (of_Z 204);; no_content val)
    else no_content val
  else
    (* set the status *)
    default_status assign_status;;
    (* set the content-type only if not yet set *)
    hasType ← has "Content-Type";
    let setType := negb hasType in
    match val with
    | VString s => string_body setType s
    | VBuffer bytes => buffer_body setType bytes
    | VStream id => stream_body setType original id
    | _ => json_body
    end.

(** The two setters; [fuel] bounds the depth of their mutual calls. *)
Fixpoint status_setter (fuel : nat) (code : number) : M unit :=
  match fuel with
  | O => out_of_fuel
  | S fuel => status_code (body_setter fuel VNull) code
  end

with body_setter (fuel : nat) (val : Value) : M unit :=
  match fuel with
  | O => out_of_fuel
  | S fuel => body_value (status_setter fuel) val
  end.

(** An assignment made from outside enters with this budget; [Fuel] below
    shows that it is never used up. *)
Definition budget : nat := 3.

Definition set_status (code : number) : M unit := status_setter budget code.
Definition set_body (val : Value) : M unit := body_setter budget val.

(** The body [redirect] writes: an anchor when the request accepts HTML,
    plain text otherwise. *)
Definition redirect_body (url : string) : M unit :=
  html ← Context.accepts ["html"];
  if truthy_str html then
    (* html *)
    let url := escape url in
    set_type "text/html; charset=utf-8";;
    set_body (VString ("Redirecting to <a href=" +:+ quot +:+ url +:+ quot
                       +:+ ">" +:+ url +:+ "</a>."))
  else
    (* text *)
    set_type "text/plain; charset=utf-8";;
    set_body (VString ("Redirecting to " +:+ url +:+ ".")).

(** [redirect(url, alt)]; an omitted [alt] is [None].  The file calls
    [encodeUrl] but neither imports nor declares it, and there is no
    global of that name: evaluating the argument of [set] throws a
    ReferenceError, before anything is written. *)
Definition redirect (url : string) (alt : option string) : M unit :=
  (* location *)
  url ← (if String.eqb url "back" then
           referrer ← Context.get "Referrer";
           ret (if nonempty referrer then referrer else or_else alt "/")
         else ret url);
  encodeUrl ← unbound (A := string → string) "encodeUrl";
  set "Location" (VString (encodeUrl url));;
  (* status *)
  st ← status;
  (if negb (statuses_redirect st) then set_status (of_Z 302) else ret tt);;
  redirect_body url.

(** The [message] getter; [None] is [undefined]. *)
Definition message : M (option string) :=
  m ← gets (λ w, statusMessage (res w));
  if truthy_str m then ret m else
  st ← status;
  ret (statuses st).

(** The [message] setter. *)
Definition set_message (msg : string) : M unit :=
  modify (with_res (set_statusMessage (Some msg))).

(** [prev.concat(val)] on the header values [prev]: an array argument is
    spread, any other value is added as one element. *)
Definition concat (prev : list string) (val : Value) : Value :=
  VArray (map VString prev
          ++ match val with
             | VArray items => items
             | _ => [val]
             end)%list.

(** [append(field, val)] *)
Definition append (field : string) (val : Value) : M unit :=
  prev ← get field;
  let val :=
    match prev with
    | Some (HStr s) => if nonempty s then concat [s] val else val
    | Some (HArr l) => concat l val
    | None => val
    end in
  set field val.

(** The [etag] setter and getter. *)
Definition set_etag (val : string) : M unit :=
  let val := if negb (Js.test_etag_quoted val)
             then quot +:+ val +:+ quot else val in
  set "ETag" (VString val).

Definition etag : M (option HeaderValue) := get "ETag".

End Methods.
End Responce.

(** ** A concrete instance of the imported packages

    Small stand-ins with the behaviour of the real packages on the inputs
    used in the examples below. *)

Module Sample.

Definition status_text (c : Z) : option string :=
  if c =? 200 then Some "OK" else
  if c =? 204 then Some "No Content" else
  if c =? 301 then Some "Moved Permanently" else
  if c =? 302 then Some "Found" else
  if c =? 304 then Some "Not Modified" else
  if c =? 404 then Some "Not Found" else None.

Definition empty (c : Z) : bool := (c =? 204) || (c =? 205) || (c =? 304).

Definition redirect (c : Z) : bool :=
  (c =? 300) || (c =? 301) || (c =? 302) || (c =? 303) || (c =? 305)
  || (c =? 307) || (c =? 308).

Fixpoint contains (c : ascii) (s : string) : bool :=
  match s with
  | EmptyString => false
  | String d r => Ascii.eqb c d || contains c r
  end.

Definition contentType (t : string) : option string :=
  if String.eqb t "html" then Some "text/html; charset=utf-8" else
  if String.eqb t "text" then Some "text/plain; charset=utf-8" else
  if String.eqb t "json" then Some "application/json; charset=utf-8" else
  if String.eqb t "bin" then Some "application/octet-stream" else
  if contains "/" t then Some t else None.

(** The global [escape] on ASCII text: letters, digits and the
    characters of [@*_+-./] stay, any other character becomes a percent
    sign and two hexadecimal digits. *)
Definition hex_digit (n : N) : ascii :=
  ascii_of_N (if (n <? 10)%N then 48 + n else 55 + n).

Definition kept_by_escape (c : ascii) : bool :=
  let n := N_of_ascii c in
  ((48 <=? n) && (n <=? 57) || (65 <=? n) && (n <=? 90)
   || (97 <=? n) && (n <=? 122))%N
  || contains c "@*_+-./".

Fixpoint percent_escape (s : string) : string :=
  match s with
  | EmptyString => EmptyString
  | String c r =>
    (if kept_by_escape c then String c EmptyString
     else String "%" (String (hex_digit (N_of_ascii c / 16))
                        (String (hex_digit (N_of_ascii c mod 16))
                           EmptyString)))
    +:+ percent_escape r
  end.

Definition vary (r : ServerResponse) (field : string) : Exn + ServerResponse :=
  if nonempty field
  then inr (with_outHeaders (insert "vary" (HStr field)) r)
  else inl (TypeError "field argument is required").

Definition types (r : IncomingMessage) (args : list string) : option string :=
  match headers r !! "accept" with
  | Some a => if String.eqb a "text/plain" then None else head args
  | None => head args
  end.

Definition URL_parse (s : string) : option UrlRecord :=
  if String.prefix "http:///" s || String.prefix "https:///" s then None else
  if String.prefix "http://" s || String.prefix "https://" s
  then Some {| href := s; hostname := "" |}
  else None.

#[export] Instance imports : Imports := {|
  statuses := status_text;
  statuses_empty := empty;
  statuses_redirect := redirect;
  mime_contentType := contentType;
  escape := percent_escape;
  vary_pkg := vary;
  accepts_types := types;
  URL_new := URL_parse;
  JSON_stringify := λ _, "{}";
  String_other := λ _, "[object Object]"
|}.

(** A fresh cycle: status 404 as the server sets it before the handlers
    run, no headers, no body. *)
Definition fresh : World := {|
  res := {| statusCode := 404; statusMessage := None; outHeaders := ∅;
            headersSent := false; finishListeners := [] |};
  req := {| headers := ∅; httpVersionMajor := 1;
            socket := Some {| encrypted := false; remoteAddress := "127.0.0.1" |} |};
  app := {| proxy := false |};
  response := {| _explicitStatus := false; _explicitNullBody := false;
                 _body := VUndefined |};
  request := {| originalUrl := "/"; memoizedURL := None; _accept := None |};
  typeLRUCache := Common.LRU_new;
  heap := [];
  errorHandlers := []
|}.

(** The same cycle after the head has been written. *)
Definition flushed (w : World) : World :=
  with_res (λ r, {| statusCode := statusCode r;
                    statusMessage := statusMessage r;
                    outHeaders := outHeaders r; headersSent := true;
                    finishListeners := finishListeners r |}) w.

Definition with_header (k : string) (v : string) (w : World) : World :=
  with_res (with_outHeaders (insert k (HStr v))) w.

Definition with_req_header (k : string) (v : string) (w : World) : World :=
  {| res := res w;
     req := {| headers := <[k := v]> (headers (req w));
               httpVersionMajor := httpVersionMajor (req w);
               socket := socket (req w) |};
     app := app w; response := response w; request := request w;
     typeLRUCache := typeLRUCache w; heap := heap w;
     errorHandlers := errorHandlers w |}.

(** The store after running [m], whatever its outcome. *)
Definition exec {A} (m : M A) (w : World) : World := snd (m w).

(** [ctx.body = "hello"] on a fresh cycle: status 200, type text/plain,
    length 5. *)
Definition text_response : World :=
  exec (Responce.set_body (VString "hello")) fresh.

(** [ctx.body = ""] on a fresh cycle: the same headers with length 0, and
    a body that is not null but falsy. *)
Definition empty_text_response : World :=
  exec (Responce.set_body (VString "")) fresh.

(** [ctx.status = 200; ctx.type = "json"] on a fresh cycle. *)
Definition json_response : World :=
  exec (Responce.set_type "json") (exec (Responce.set_status (of_Z 200)) fresh).

(** [ctx.set("Content-Type", "application/vnd.api+json")] on a fresh
    cycle: a content type chosen by the caller. *)
Definition typed_response : World :=
  exec (Responce.set "Content-Type" (VString "application/vnd.api+json"))
    fresh.

(** [ctx.set("Transfer-Encoding", "chunked")] on a fresh cycle. *)
Definition chunked_response : World :=
  exec (Responce.set "Transfer-Encoding" (VString "chunked")) fresh.

(** A chunked response on which a Content-Length of 5 is still set. *)
Definition stale_length_response : World :=
  exec (Responce.set "Content-Length" (VNumber (of_Z 5))) chunked_response.

(** A fresh cycle whose request carries [Referrer: http://x/y]. *)
Definition referred : World := with_req_header "referrer" "http://x/y" fresh.

End Sample.

(** ** Further sample cycles *)

Module Cases.

#[local] Existing Instance Sample.imports.

(** The same cycle in an application that trusts its proxy. *)
Definition proxied (w : World) : World :=
  {| res := res w; req := req w; app := {| proxy := true |};
     response := response w; request := request w;
     typeLRUCache := typeLRUCache w; heap := heap w;
     errorHandlers := errorHandlers w |}.

(** The same cycle for the request target [url]. *)
Definition targeted (url : string) (w : World) : World :=
  with_request (λ r, {| originalUrl := url; memoizedURL := memoizedURL r;
                        _accept := _accept r |}) w.

(** An object read by [only]: a status, a header object, no message. *)
Definition summary (key : string) : Value :=
  if String.eqb key "status" then VNumber (of_Z 404) else
  if String.eqb key "header" then VObject 0 else
  if String.eqb key "message" then VUndefined else VUndefined.

(** [ctx.set("Content-Type", ["text/plain", "text/html"])] on a fresh
    cycle. *)
Definition listed_type : World :=
  Sample.exec
    (Responce.set "Content-Type"
       (VArray [VString "text/plain"; VString "text/html"]))
    Sample.fresh.


(** [ctx.status = 304; ctx.set("Content-Type", "application/json")] on a
    fresh cycle. *)
Definition not_modified : World :=
  Sample.exec (Responce.set "Content-Type" (VString "application/json"))
    (Sample.exec (Responce.set_status (of_Z 304)) Sample.fresh).

(** [ctx.message = "Nope"] on a fresh cycle. *)
Definition renamed : World :=
  Sample.exec (Responce.set_message "Nope") Sample.fresh.

End Cases.

(** * Verification *)

(** ** Vocabulary of the statements and proofs *)

Section Vocabulary.
Context `{Imports}.

(** What [getType] computes on the cache alone. *)
Definition cache_lookup (type : string) (c : LRU) : option string * LRU :=
  let (v, c1) := Common.LRU_get type c in
  if negb (truthy_str v)
  then (mime_contentType type, Common.LRU_set type (mime_contentType type) c1)
  else (v, c1).

(** Every entry of the cache is the package's answer for its key. *)
Definition coherent (c : LRU) : Prop :=
  Forall (λ e, snd e = mime_contentType (fst e)) (lru_entries c).

(** The [type] getter only reads the header table. *)
Definition type_of (hs : gmap string HeaderValue) : Result string :=
  match hs !! "content-type" with
  | None => Ok ""
  | Some (HStr s) => if nonempty s then Ok (Js.split_first ";" s) else Ok ""
  | Some (HArr _) => Throw (TypeError "type.split is not a function")
  end.

Definition is_set (v : option HeaderValue) : bool :=
  match v with
  | Some _ => true
  | None => false
  end.

Definition with_header (k : string) (v : HeaderValue) (w : World) : World :=
  with_res (with_outHeaders (insert k v)) w.

Definition without_header (k : string) (w : World) : World :=
  with_res (with_outHeaders (delete k)) w.

(** The store once the "no content" branch has run on unsent headers. *)
Definition null_body (w : World) : World :=
  without_header "transfer-encoding"
    (without_header "content-length"
       (without_header "content-type"
          (with_response (set_explicitNullBody true)
             (with_response (set__body VNull) w)))).

(** The status message after the status setter has recorded [code]. *)
Definition message_for (code : Z) (w : World) : option string :=
  if httpVersionMajor (req w) <? 2 then statuses code
  else statusMessage (res w).

(** The store after the status setter has recorded [code]. *)
Definition status_recorded (code : Z) (w : World) : World :=
  with_res (set_statusMessage (message_for code w))
    (with_res (set_statusCode code)
       (with_response (set_explicitStatus true) w)).

(** The status setter in closed form. *)
Definition status_result (code : number) (w : World) : Result unit * World :=
  if headersSent (res w) then (Ok tt, w) else
  if negb (Number_isInteger code)
  then (Throw (AssertionError "status code must be a number"), w) else
  if negb (number_ge code 100 && number_le code 999)
  then (Throw (AssertionError
                 ("invalid status code: " +:+ String_number code)), w)
  else
    if truthy (_body (response w)) && statuses_empty (to_Z code)
    then (Ok tt, null_body (status_recorded (to_Z code) w))
    else (Ok tt, status_recorded (to_Z code) w).

(** The store after "set the status", when 200 is not a no-body status. *)
Definition defaulted (w : World) : World :=
  if _explicitStatus (response w) || headersSent (res w) then w
  else status_recorded 200 w.

(** What a block that only writes headers leaves alone. *)
Definition headers_only (w w' : World) : Prop :=
  headersSent (res w') = headersSent (res w)
  ∧ statusCode (res w') = statusCode (res w)
  ∧ response w' = response w
  ∧ req w' = req w
  ∧ request w' = request w.

(** The negotiator [accept] answers with, and what it answers. *)
Definition negotiator (w : World) : Negotiator :=
  default AcceptsReq (_accept (request w)).

Definition negotiated (args : list string) (w : World) : option string :=
  match negotiator w with
  | AcceptsReq => accepts_types (req w) args
  | AcceptsCustom types => types args
  end.

(** The value [Request.get] answers with. *)
Definition request_header (field : string) (w : World) : string :=
  match fst (Request.get field w) with
  | Ok v => v
  | _ => ""
  end.

(** The object the [URL] getter builds on its first read: the parsed
    [origin + originalUrl], or the empty object when [origin] or the
    constructor throws. *)
Definition constructed (w : World) : UrlObject :=
  match fst (Request.origin w) with
  | Ok o =>
    match URL_new (o +:+ originalUrl (request w)) with
    | Some u => ParsedURL u
    | None => EmptyObject
    end
  | _ => EmptyObject
  end.

(** The two bodies [redirect] writes. *)
Definition html_redirect (url : string) : string :=
  "Redirecting to <a href=" +:+ quot +:+ url +:+ quot +:+ ">" +:+ url
  +:+ "</a>.".

Definition text_redirect (url : string) : string :=
  "Redirecting to " +:+ url +:+ ".".

Definition terminates {A} (r : Result A * World) : Prop := fst r ≠ OutOfFuel.

Definition total {A} (m : M A) : Prop := ∀ w, terminates (m w).

(** The body kinds for which the setter consults [setType]. *)
Definition sets_fallback (val : Value) : bool :=
  match val with
  | VString _ | VBuffer _ | VStream _ => true
  | _ => false
  end.

(** The body kinds for which the setter assigns [length]. *)
Definition sets_length (val : Value) : bool :=
  match val with
  | VString _ | VBuffer _ => true
  | _ => false
  end.

(** The type name these kinds fall back to. *)
Definition fallback_type (val : Value) : string :=
  match val with
  | VString s => if Js.test_leading_lt s then "html" else "text"
  | _ => "bin"
  end.

(** The header table after [this.type = name], on a response whose
    headers are sent or not ([sent]) and with the MIME cache [c]. *)
Definition type_headers (name : string) (sent : bool) (c : LRU)
    (hs : gmap string HeaderValue) : gmap string HeaderValue :=
  if sent then hs else
  let v := fst (cache_lookup name c) in
  if truthy_str v then <["content-type" := HStr (default "" v)]> hs
  else delete "content-type" hs.

(** The header table after [if (setType) this.type = name]. *)
Definition fallback_headers (name : string) (sent : bool) (c : LRU)
    (setType : bool) (hs : gmap string HeaderValue)
    : gmap string HeaderValue :=
  if setType then type_headers name sent c hs else hs.

(** The header table after [this.length = n]. *)
Definition length_headers (n : number) (sent : bool)
    (hs : gmap string HeaderValue) : gmap string HeaderValue :=
  if is_set (hs !! "transfer-encoding") then hs else
  if sent then hs
  else <["content-length" := HStr (String_number n)]> hs.

(** The header table after the "overwriting" step of a stream body. *)
Definition overwrite_headers (original : Value) (id : nat) (sent : bool)
    (hs : gmap string HeaderValue) : gmap string HeaderValue :=
  if differs_from_stream original id then
    if negb (nullish original) then
      if sent then hs else delete "content-length" hs
    else hs
  else hs.

(** The header table after a string, buffer or stream body has been
    assigned to a response whose table was [hs] and whose body was
    [original]. *)
Definition entity_headers (val original : Value) (sent : bool) (c : LRU)
    (hs : gmap string HeaderValue) : gmap string HeaderValue :=
  let setType := negb (is_set (hs !! "content-type")) in
  match val with
  | VString s =>
    length_headers (of_nat (String.length s)) sent
      (fallback_headers (fallback_type val) sent c setType hs)
  | VBuffer bytes =>
    length_headers (of_nat (List.length bytes)) sent
      (fallback_headers "bin" sent c setType hs)
  | VStream id =>
    fallback_headers "bin" sent c setType
      (overwrite_headers original id sent hs)
  | _ => hs
  end.

End Vocabulary.

(** ** Vocabulary of the further statements *)

(** [key] is one of [keys]. *)
Definition mentions (key : string) (keys : list string) : bool :=
  existsb (String.eqb key) keys.

(** The character [c] occurs in [s]. *)
Fixpoint occurs (c : ascii) (s : string) : bool :=
  match s with
  | EmptyString => false
  | String d r => Ascii.eqb c d || occurs c r
  end.

Arguments Common.only : simpl never.

(** An ASCII character that is neither white space nor a comma. *)
Definition plain_char (c : ascii) : bool :=
  let n := N_of_ascii c in
  ((n <? 128) && negb (Js.space1 c) && negb (n =? 44))%N.

Fixpoint plain (s : string) : bool :=
  match s with
  | EmptyString => true
  | String c r => plain_char c && plain r
  end.

(** A run of ASCII white space. *)
Fixpoint blank (s : string) : bool :=
  match s with
  | EmptyString => true
  | String c r => Js.space1 c && blank r
  end.

(** The header of the incoming message stored under [name]; [""] when
    there is none. *)
Definition incoming (name : string) (w : World) : string :=
  or_else (headers (req w) !! name) "".

Arguments Request.hostname : simpl never.
Arguments Request.href : simpl never.
Arguments Request.secure : simpl never.
Arguments Request.type : simpl never.
Arguments incoming : simpl never.
Arguments Js.test_http_scheme : simpl never.
Arguments Js.test_etag_quoted : simpl never.

(** What [res.setHeader] accepts without throwing.  A field name is an
    HTTP token: one or more of the letters, the digits and the characters
    of [^_`-!#$%&'*+.|~].  A field value holds TAB and the visible ASCII
    characters with the space; a list of values is checked as its
    elements joined by commas. *)
Definition token_char (c : ascii) : bool :=
  let n := N_of_ascii c in
  ((n =? 33) || (35 <=? n) && (n <=? 39) || (n =? 42) || (n =? 43)
   || (n =? 45) || (n =? 46) || (48 <=? n) && (n <=? 57)
   || (65 <=? n) && (n <=? 90) || (94 <=? n) && (n <=? 122)
   || (n =? 124) || (n =? 126))%N.

Fixpoint token_chars (s : string) : bool :=
  match s with
  | EmptyString => true
  | String c r => token_char c && token_chars r
  end.

Definition http_token (s : string) : bool := nonempty s && token_chars s.

Definition field_char (c : ascii) : bool :=
  let n := N_of_ascii c in ((n =? 9) || (32 <=? n) && (n <=? 126))%N.

Fixpoint field_text (s : string) : bool :=
  match s with
  | EmptyString => true
  | String c r => field_char c && field_text r
  end.

Definition field_value (v : HeaderValue) : bool :=
  match v with
  | HStr s => field_text s
  | HArr l => forallb field_text l
  end.

(** The strings [set] stores for the elements of an array value. *)
Definition texts `{Imports} (items : list Value) : list string :=
  map (λ v, match v with VString s => s | _ => String_ v end) items.

(** The elements [concat] adds for the argument [val]. *)
Definition spread (val : Value) : list Value :=
  match val with
  | VArray items => items
  | _ => [val]
  end.

Arguments Responce.append : simpl never.
Arguments Responce.set_etag : simpl never.
Arguments Responce.message : simpl never.
Arguments Responce.set_message : simpl never.


Arguments of_Z : simpl never.
Arguments bind_result {A B} !r f /.
Arguments Js.toLowerCase : simpl never.
Arguments Number_isInteger : simpl never.
Arguments to_Z : simpl never.
Arguments number_ge : simpl never.
Arguments number_le : simpl never.
Arguments String_number : simpl never.
Arguments String_ : simpl never.
Arguments of_nat : simpl never.
Arguments cache_lookup : simpl never.
Arguments message_for : simpl never.
Arguments type_of : simpl never.
Arguments defaulted : simpl never.
Arguments negotiated : simpl never.
Arguments request_header : simpl never.
Arguments Responce.redirect : simpl never.
Arguments Responce.redirect_body : simpl never.
Arguments html_redirect : simpl never.
Arguments text_redirect : simpl never.
Arguments type_headers : simpl never.
Arguments fallback_headers : simpl never.
Arguments length_headers : simpl never.
Arguments overwrite_headers : simpl never.
Arguments Responce.default_status : simpl never.
Arguments Responce.string_body : simpl never.
Arguments Responce.buffer_body : simpl never.
Arguments Responce.stream_body : simpl never.
Arguments Responce.json_body : simpl never.
Arguments Responce.has : simpl never.
Arguments Responce.get : simpl never.
Arguments Responce.set : simpl never.
Arguments Responce.remove : simpl never.
Arguments Responce.vary : simpl never.
Arguments Responce.type : simpl never.
Arguments Responce.set_type : simpl never.
Arguments Responce.set_length : simpl never.
Arguments Responce.no_content : simpl never.
Arguments Responce.status_setter : simpl never.
Arguments Responce.body_setter : simpl never.
Arguments Responce.status_code : simpl never.
Arguments Responce.body_value : simpl never.
Arguments Responce.set_status : simpl never.
Arguments Responce.set_body : simpl never.
Arguments Common.getType : simpl never.
Arguments Request.get : simpl never.
Arguments Request.accepts : simpl never.
Arguments Request.origin : simpl never.
Arguments Request.protocol : simpl never.
Arguments Request.host : simpl never.
Arguments Request.URL : simpl never.
Arguments constructed : simpl never.

Create Rewrite HintDb run.

(** Rewriting with the facts known about the initial store. *)
Ltac use_facts :=
  repeat match goal with
  | E : ?l = _ |- context [?l] =>
    lazymatch l with
    | context [res _] => rewrite E
    | context [response _] => rewrite E
    | context [req _] => rewrite E
    | context [request _] => rewrite E
    | context [typeLRUCache _] => rewrite E
    | statuses_empty _ => rewrite E
    | statuses_redirect _ => rewrite E
    end
  end.

(** Symbolic execution of a method on a store: the equations of the
    methods are in the rewrite database [run]. *)
Ltac run := repeat (progress (cbn; autorewrite with run; use_facts)).

(** Case analysis on the condition at the head of a stuck execution, for
    goals of the form [execution = (r, w') → ...]. *)
Ltac split_head :=
  lazymatch goal with
  | |- ?lhs = _ → _ =>
    match lhs with
    | context [(if ?c then _ else _) ?w] =>
      lazymatch type of w with World => destruct c eqn:? end
    | context [bind_result (if ?c then _ else _) _] => destruct c eqn:?
    | (if ?c then _ else _) => destruct c eqn:?
    | context [bind_result (type_of ?hs, _) _] =>
      destruct (type_of hs) eqn:?
    end
  end.

(** Unfolds an assignment to [status] or [body] into its closed form; the
    closed forms are in the rewrite database [closed]. *)
Create Rewrite HintDb closed.
Ltac start :=
  autorewrite with closed;
  unfold Responce.body_value, status_result.

(** Runs the execution on the left of [execution = (r, w') → ...] to its
    end on every path, and substitutes the outcome. *)
Ltac paths :=
  run; repeat (split_head; run);
  try (intros [= <- <-]); run.

(** ** Numbers and their decimal text *)

Lemma isInteger_of_Z z : Number_isInteger (of_Z z) = true.
Proof.
  unfold Number_isInteger, of_Z, inject_Z; cbn [Qnum Qden].
  by rewrite Z.mod_1_r.
Qed.

Lemma to_Z_of_Z z : to_Z (of_Z z) = z.
Proof. unfold to_Z, of_Z, inject_Z; cbn [Qnum Qden]. apply Z.div_1_r. Qed.

Lemma number_ge_of_Z z k : number_ge (of_Z z) k = (k <=? z).
Proof.
  unfold number_ge, of_Z, inject_Z; cbn [Qnum Qden]. by rewrite Z.mul_1_r.
Qed.

Lemma number_le_of_Z z k : number_le (of_Z z) k = (z <=? k).
Proof.
  unfold number_le, of_Z, inject_Z; cbn [Qnum Qden]. by rewrite Z.mul_1_r.
Qed.

Lemma integral_range (code : number) :
  Number_isInteger code = true →
  number_ge code 100 && number_le code 999
  = (100 <=? to_Z code) && (to_Z code <=? 999).
Proof.
  destruct code as [[n d]| |]; try discriminate.
  unfold Number_isInteger, number_ge, number_le, to_Z; cbn [Qnum Qden].
  intros Hi. apply Z.eqb_eq in Hi.
  pose proof (Z.div_mod n (Z.pos d) ltac:(lia)) as Hd. rewrite Hi in Hd.
  set (k := n / Z.pos d) in *. clearbody k.
  f_equal; apply Bool.eq_iff_eq_true; rewrite !Z.leb_le; nia.
Qed.

Lemma String_number_of_Z `{Imports} z :
  String_number (of_Z z) = NilZero.string_of_int (Z.to_int z).
Proof.
  unfold String_number. change (of_Z z) with (Finite (inject_Z z)) at 1.
  cbv beta iota. by rewrite isInteger_of_Z, to_Z_of_Z.
Qed.

Lemma digits_prefix_string d :
  Js.digits_prefix (NilEmpty.string_of_uint d) = d.
Proof. induction d; cbn; by rewrite ?IHd. Qed.

Lemma parseInt_digits d :
  d ≠ Decimal.Nil →
  Js.parseInt (NilEmpty.string_of_uint d) = Some (Z.of_uint d).
Proof.
  intros Hd. unfold Js.parseInt.
  assert (Js.skip_space (NilEmpty.string_of_uint d) = NilEmpty.string_of_uint d)
    as ->.
  { destruct d as [|d|d|d|d|d|d|d|d|d|d]; try done;
      cbn [NilEmpty.string_of_uint];
      (destruct (NilEmpty.string_of_uint d) as [|c2 [|c3 r]]; reflexivity). }
  assert (Js.parse_unsigned (NilEmpty.string_of_uint d) = Some (Z.of_uint d))
    as Hp.
  { unfold Js.parse_unsigned. rewrite digits_prefix_string. by destruct d. }
  destruct d; try done; cbn [NilEmpty.string_of_uint]; exact Hp.
Qed.

Lemma to_uint_not_Nil p : Pos.to_uint p ≠ Decimal.Nil.
Proof.
  intros E. pose proof (DecimalPos.Unsigned.of_to p) as Hp.
  rewrite E in Hp. discriminate Hp.
Qed.

(** Reading back the decimal text of a natural number. *)
Lemma parseInt_String_number `{Imports} (n : nat) :
  Js.parseInt (String_number (of_nat n)) = Some (Z.of_nat n).
Proof.
  unfold of_nat. rewrite String_number_of_Z.
  destruct (Z.of_nat n) as [|p|p] eqn:E; [reflexivity| |lia].
  unfold Z.to_int, NilZero.string_of_int.
  pose proof (to_uint_not_Nil p) as Hn.
  assert (NilZero.string_of_uint (Pos.to_uint p)
          = NilEmpty.string_of_uint (Pos.to_uint p)) as ->.
  { by destruct (Pos.to_uint p). }
  rewrite parseInt_digits by done. f_equal.
  change (Z.of_uint (Pos.to_uint p)) with (Z.of_int (Z.to_int (Z.pos p))).
  apply DecimalZ.of_to.
Qed.

(** ** Header names and header tables *)

Module Names.

Lemma content_type : Js.toLowerCase "Content-Type" = "content-type".
Proof. reflexivity. Qed.

Lemma content_length : Js.toLowerCase "Content-Length" = "content-length".
Proof. reflexivity. Qed.

Lemma transfer_encoding :
  Js.toLowerCase "Transfer-Encoding" = "transfer-encoding".
Proof. reflexivity. Qed.

Lemma location : Js.toLowerCase "Location" = "location".
Proof. reflexivity. Qed.

Lemma referrer : Js.toLowerCase "Referrer" = "referrer".
Proof. reflexivity. Qed.

End Names.

Section Tables.
Implicit Types (hs : gmap string HeaderValue) (k : string) (v : HeaderValue).

Lemma insert_same k v hs : <[k := v]> hs !! k = Some v.
Proof. apply lookup_insert_eq. Qed.

Lemma insert_other k k' v hs : k ≠ k' → <[k := v]> hs !! k' = hs !! k'.
Proof. apply lookup_insert_ne. Qed.

Lemma delete_same k hs : delete k hs !! k = None.
Proof. apply lookup_delete_eq. Qed.

Lemma delete_other k k' hs : k ≠ k' → delete k hs !! k' = hs !! k'.
Proof. apply lookup_delete_ne. Qed.

Lemma type_of_insert v hs :
  type_of (<["content-type" := v]> hs)
  = match v with
    | HStr s => if nonempty s then Ok (Js.split_first ";" s) else Ok ""
    | HArr _ => Throw (TypeError "type.split is not a function")
    end.
Proof. unfold type_of. by rewrite lookup_insert_eq. Qed.

Lemma type_of_delete hs : type_of (delete "content-type" hs) = Ok "".
Proof. unfold type_of. by rewrite lookup_delete_eq. Qed.

Lemma type_of_insert_other k v hs :
  k ≠ "content-type" → type_of (<[k := v]> hs) = type_of hs.
Proof. intros Hk. unfold type_of. by rewrite lookup_insert_ne. Qed.

Lemma type_of_delete_other k hs :
  k ≠ "content-type" → type_of (delete k hs) = type_of hs.
Proof. intros Hk. unfold type_of. by rewrite lookup_delete_ne. Qed.

Lemma type_of_terminates hs : type_of hs ≠ OutOfFuel.
Proof.
  unfold type_of. destruct (hs !! "content-type") as [[s|l]|]; try done.
  by destruct (nonempty s).
Qed.

End Tables.

#[global] Hint Rewrite Names.content_type Names.content_length
  Names.transfer_encoding Names.location Names.referrer
  isInteger_of_Z to_Z_of_Z number_ge_of_Z number_le_of_Z : run.
#[global] Hint Rewrite Bool.andb_false_r Bool.andb_true_r Bool.andb_false_l
  Bool.andb_true_l Bool.orb_false_r Bool.orb_true_r : run.
#[global] Hint Rewrite insert_same delete_same type_of_insert type_of_delete
  : run.
#[global] Hint Rewrite insert_other delete_other type_of_insert_other
  type_of_delete_other using discriminate : run.

(** ** The monad *)

Lemma bind_eq {A B} (m : M A) (k : A → M B) w :
  bind m k w = bind_result (m w) k.
Proof. reflexivity. Qed.

Lemma bind_result_if {A B} (c : bool) (x y : Result A * World) (k : A → M B) :
  bind_result (if c then x else y) k
  = if c then bind_result x k else bind_result y k.
Proof. by destruct c. Qed.

Lemma if_apply {A} (c : bool) (f g : M A) w :
  (if c then f else g) w = if c then f w else g w.
Proof. by destruct c. Qed.

Lemma bind_ext {A B} (m : M A) (k k' : A → M B) w :
  (∀ a w', k a w' = k' a w') → bind m k w = bind m k' w.
Proof.
  intros E. unfold bind, bind_result. destruct (m w) as [[a|e|] w']; auto.
Qed.

Lemma ret_eq {A} (a : A) w : ret a w = (Ok a, w).
Proof. reflexivity. Qed.

Lemma gets_eq {A} (f : World → A) w : gets f w = (Ok (f w), w).
Proof. reflexivity. Qed.

Lemma modify_eq f w : modify f w = (Ok tt, f w).
Proof. reflexivity. Qed.

Lemma throw_eq {A} e w : @throw A e w = (Throw e, w).
Proof. reflexivity. Qed.

#[global] Hint Rewrite @bind_eq @ret_eq @gets_eq @modify_eq @throw_eq : run.

(** ** The cache behind [getType] *)

Section Cache.
Context `{Imports}.

Lemma getType_eq type w :
  Common.getType type w
  = (Ok (fst (cache_lookup type (typeLRUCache w))),
     with_cache (λ _, snd (cache_lookup type (typeLRUCache w))) w).
Proof.
  unfold Common.getType, cache_lookup, bind, bind_result.
  destruct (Common.LRU_get type (typeLRUCache w)) as [v c1].
  destruct (truthy_str v); reflexivity.
Qed.

Lemma coherent_new : coherent Common.LRU_new.
Proof. apply Forall_nil_2. Qed.

Lemma assoc_In k l v : Common.assoc k l = Some v → In (k, v) l.
Proof.
  induction l as [|[k' v'] l IH]; cbn; [done|].
  destruct (String.eqb k' k) eqn:E.
  - apply String.eqb_eq in E. intros [= ->]. left. by subst.
  - intros Hl. right. by apply IH.
Qed.

Lemma coherent_assoc c k v :
  coherent c → Common.assoc k (lru_entries c) = Some v → v = mime_contentType k.
Proof.
  intros Hc Ha. apply assoc_In in Ha.
  unfold coherent in Hc. rewrite List.Forall_forall in Hc.
  exact (Hc _ Ha).
Qed.

Lemma coherent_without c k :
  coherent c → Forall (λ e, snd e = mime_contentType (fst e))
                      (Common.without k (lru_entries c)).
Proof.
  unfold coherent, Common.without. rewrite !List.Forall_forall.
  intros Hc e He. apply List.filter_In in He. apply Hc, He.
Qed.

Lemma coherent_get c k :
  coherent c → coherent (snd (Common.LRU_get k c)).
Proof.
  intros Hc. unfold Common.LRU_get.
  destruct (Common.assoc k (lru_entries c)) as [v|] eqn:E; [|done].
  unfold coherent; cbn. apply Forall_cons_2.
  - cbn. by apply (coherent_assoc c).
  - by apply coherent_without.
Qed.

Lemma coherent_set c k :
  coherent c → coherent (Common.LRU_set k (mime_contentType k) c).
Proof.
  intros Hc. unfold Common.LRU_set, coherent; cbn [lru_entries].
  apply Forall_take. apply Forall_cons_2; [done|]. by apply coherent_without.
Qed.

(** On a coherent cache [getType] answers as the package does, and leaves
    the cache coherent. *)
Lemma cache_lookup_coherent type c :
  coherent c →
  fst (cache_lookup type c) = mime_contentType type
  ∧ coherent (snd (cache_lookup type c)).
Proof.
  intros Hc. unfold cache_lookup.
  pose proof (coherent_get c type Hc) as Hg.
  unfold Common.LRU_get in *.
  destruct (Common.assoc type (lru_entries c)) as [v|] eqn:E; cbn [fst snd] in *.
  - apply (coherent_assoc c) in E; [|done]. subst v.
    destruct (truthy_str (mime_contentType type)); cbn [negb fst snd];
      [done|]. split; [done|]. by apply coherent_set.
  - cbn. split; [done|]. by apply coherent_set.
Qed.

End Cache.

(** ** Equations of the response methods *)

Section Run.
Context `{Imports}.

Lemma has_eq f w :
  Responce.has f w = (Ok (is_set (outHeaders (res w) !! Js.toLowerCase f)), w).
Proof. reflexivity. Qed.

Lemma get_eq f w :
  Responce.get f w = (Ok (outHeaders (res w) !! Js.toLowerCase f), w).
Proof. reflexivity. Qed.

Lemma set_eq f v w :
  Responce.set f v w
  = if headersSent (res w) then (Ok tt, w)
    else (Ok tt, with_header (Js.toLowerCase f) (Responce.coerce v) w).
Proof.
  unfold Responce.set, bind, bind_result, Responce.headerSent, gets.
  by destruct (headersSent (res w)).
Qed.

Lemma remove_eq f w :
  Responce.remove f w
  = if headersSent (res w) then (Ok tt, w)
    else (Ok tt, without_header (Js.toLowerCase f) w).
Proof.
  unfold Responce.remove, bind, bind_result, Responce.headerSent, gets.
  by destruct (headersSent (res w)).
Qed.

Lemma type_eq w : Responce.type w = (type_of (outHeaders (res w)), w).
Proof.
  unfold Responce.type, type_of, bind, bind_result.
  rewrite get_eq, Names.content_type.
  destruct (outHeaders (res w) !! "content-type") as [[s|l]|]; try reflexivity.
  by destruct (nonempty s).
Qed.

Lemma set_type_eq t w :
  Responce.set_type t w
  = let v := fst (cache_lookup t (typeLRUCache w)) in
    let w1 := with_cache (λ _, snd (cache_lookup t (typeLRUCache w))) w in
    if headersSent (res w) then (Ok tt, w1)
    else if truthy_str v
         then (Ok tt, with_header "content-type" (HStr (default "" v)) w1)
         else (Ok tt, without_header "content-type" w1).
Proof.
  unfold Responce.set_type, bind, bind_result. rewrite getType_eq.
  destruct (truthy_str _); rewrite ?set_eq, ?remove_eq, Names.content_type;
    cbn; by destruct (headersSent (res w)).
Qed.

Lemma coerce_number n : Responce.coerce (VNumber n) = HStr (String_number n).
Proof. reflexivity. Qed.

Lemma set_length_eq n w :
  Responce.set_length n w
  = if is_set (outHeaders (res w) !! "transfer-encoding") then (Ok tt, w)
    else if headersSent (res w) then (Ok tt, w)
    else (Ok tt, with_header "content-length" (HStr (String_number n)) w).
Proof.
  unfold Responce.set_length, bind, bind_result.
  rewrite has_eq, Names.transfer_encoding.
  destruct (is_set _); cbn [negb]; [done|].
  by rewrite set_eq, Names.content_length, coerce_number.
Qed.

Lemma no_content_eq v w :
  Responce.no_content v w
  = let w0 := if is_null v
              then with_response (set_explicitNullBody true) w else w in
    if headersSent (res w) then (Ok tt, w0)
    else (Ok tt, without_header "transfer-encoding"
                   (without_header "content-length"
                      (without_header "content-type" w0))).
Proof.
  unfold Responce.no_content, bind, bind_result.
  destruct (headersSent (res w)) eqn:E;
    destruct (is_null v); cbv beta iota zeta delta [modify ret];
    rewrite (remove_eq "Content-Type"); cbn; rewrite E;
    rewrite (remove_eq "Content-Length"); cbn; rewrite E;
    rewrite (remove_eq "Transfer-Encoding"); cbn; rewrite E;
    rewrite ?Names.content_type, ?Names.content_length,
      ?Names.transfer_encoding; reflexivity.
Qed.

Lemma status_setter_S fuel code :
  Responce.status_setter (S fuel) code
  = Responce.status_code (Responce.body_setter fuel VNull) code.
Proof. reflexivity. Qed.

Lemma body_setter_S fuel val :
  Responce.body_setter (S fuel) val
  = Responce.body_value (Responce.status_setter fuel) val.
Proof. reflexivity. Qed.

End Run.

#[global] Hint Rewrite @has_eq @get_eq @set_eq @remove_eq @type_eq
  @set_type_eq @set_length_eq @no_content_eq : run.

(** ** The recursion budget

    The status setter has a closed form for every budget of at least two,
    and the body setter is then the setter body run with that closed form:
    the budget of [set_status] and [set_body] is never exhausted and a
    larger one changes nothing. *)

Section Fuel.
Context `{Imports}.

Lemma body_null_on_empty_status n w :
  headersSent (res w) = false →
  statuses_empty (statusCode (res w)) = true →
  Responce.body_setter (S n) VNull w = (Ok tt, null_body w).
Proof.
  intros Hs He. rewrite body_setter_S. unfold Responce.body_value, null_body.
  run. reflexivity.
Qed.

Lemma status_setter_eq n code w :
  Responce.status_setter (S (S n)) code w = status_result code w.
Proof.
  rewrite status_setter_S.
  unfold Responce.status_code, status_result, status_recorded, message_for.
  run. destruct (headersSent (res w)) eqn:Hs; [reflexivity|].
  unfold assert.
  destruct (Number_isInteger code); [|reflexivity].
  destruct (number_ge code 100 && number_le code 999); [|reflexivity].
  run.
  destruct (httpVersionMajor (req w) <? 2) eqn:Hv; run;
    destruct (truthy (_body (response w)) && statuses_empty (to_Z code)) eqn:Hb;
    run;
    rewrite ?body_null_on_empty_status
      by (cbn; first [assumption | by apply andb_prop in Hb as [_ ?]]);
    reflexivity.
Qed.

Lemma set_status_eq code w : Responce.set_status code w = status_result code w.
Proof. apply status_setter_eq. Qed.

Lemma default_status_ext f g w :
  (∀ c w', f c w' = g c w') →
  Responce.default_status f w = Responce.default_status g w.
Proof.
  intros E. unfold Responce.default_status.
  apply bind_ext; intros explicit w1. by destruct (negb explicit).
Qed.

Lemma body_value_ext f g val w :
  (∀ c w', f c w' = g c w') →
  Responce.body_value f val w = Responce.body_value g val w.
Proof.
  intros E. unfold Responce.body_value.
  apply bind_ext; intros original w1. apply bind_ext; intros [] w2.
  destruct (nullish val).
  - apply bind_ext; intros st w3. destruct (negb (statuses_empty st)); [|done].
    apply bind_ext; intros t w4. destruct (t =? "application/json")%string;
      [done|]. unfold bind. by rewrite E.
  - unfold bind at 1 2. by rewrite (default_status_ext f g).
Qed.

(** The body setter with the status setter in closed form. *)
Lemma set_body_eq val w :
  Responce.set_body val w = Responce.body_value status_result val w.
Proof.
  unfold Responce.set_body, Responce.budget. rewrite body_setter_S.
  apply body_value_ext. intros c w'. apply status_setter_eq.
Qed.

(** A larger budget changes nothing. *)
Lemma status_setter_fuel n code w :
  Responce.status_setter (2 + n) code w = Responce.set_status code w.
Proof.
  unfold Responce.set_status, Responce.budget.
  change (2 + n)%nat with (S (S n)).
  by rewrite (status_setter_eq n), (status_setter_eq 1).
Qed.

Lemma body_setter_fuel n val w :
  Responce.body_setter (3 + n) val w = Responce.set_body val w.
Proof.
  unfold Responce.set_body, Responce.budget.
  change (3 + n)%nat with (S (S (S n))). rewrite !body_setter_S.
  apply body_value_ext. intros c w'.
  by rewrite (status_setter_eq n), (status_setter_eq 0).
Qed.

(** The budget is never exhausted. *)
Lemma total_bind {A B} (m : M A) (k : A → M B) :
  total m → (∀ a, total (k a)) → total (bind m k).
Proof.
  intros Hm Hk w. unfold terminates, bind, bind_result.
  specialize (Hm w). unfold terminates in Hm.
  destruct (m w) as [[a|e|] w']; cbn in *; try done. apply Hk.
Qed.

Lemma total_if {A} (c : bool) (m1 m2 : M A) :
  total m1 → total m2 → total (if c then m1 else m2).
Proof. by destruct c. Qed.

Lemma total_ok {A} (m : M A) :
  (∀ w, ∃ a w', m w = (Ok a, w')) → total m.
Proof. intros Hm w. destruct (Hm w) as (a & w' & ->). done. Qed.

Lemma total_set f v : total (Responce.set f v).
Proof.
  apply total_ok. intros w. rewrite set_eq.
  destruct (headersSent (res w)); eauto.
Qed.

Lemma total_remove f : total (Responce.remove f).
Proof.
  apply total_ok. intros w. rewrite remove_eq.
  destruct (headersSent (res w)); eauto.
Qed.

Lemma total_set_type t : total (Responce.set_type t).
Proof.
  apply total_ok. intros w. rewrite set_type_eq. cbv zeta.
  destruct (headersSent (res w)); [eauto|]. destruct (truthy_str _); eauto.
Qed.

Lemma total_set_length n : total (Responce.set_length n).
Proof.
  apply total_ok. intros w. rewrite set_length_eq.
  destruct (is_set _); [eauto|]. destruct (headersSent (res w)); eauto.
Qed.

Lemma total_no_content v : total (Responce.no_content v).
Proof.
  apply total_ok. intros w. rewrite no_content_eq. cbv zeta.
  destruct (headersSent (res w)); eauto.
Qed.

Lemma total_type : total Responce.type.
Proof. intros w. rewrite type_eq. apply type_of_terminates. Qed.

Lemma total_status_result code : total (status_result code).
Proof.
  intros w. unfold terminates, status_result.
  repeat match goal with |- context [if ?c then _ else _] => destruct c end;
    discriminate.
Qed.

Lemma set_status_terminates code w : terminates (Responce.set_status code w).
Proof. rewrite set_status_eq. apply total_status_result. Qed.

Lemma set_body_terminates val w : terminates (Responce.set_body val w).
Proof.
  rewrite set_body_eq. revert w. change (total (Responce.body_value status_result val)).
  unfold Responce.body_value, Responce.default_status, Responce.string_body,
    Responce.buffer_body, Responce.stream_body, Responce.json_body.
  repeat first
    [ apply total_set | apply total_remove | apply total_set_type
    | apply total_set_length | apply total_no_content | apply total_type
    | apply total_status_result
    | apply total_if
    | apply total_ok; intros ?; by eauto
    | match goal with |- total (match ?v with _ => _ end) => destruct v end
    | apply total_bind; [|intros ?] ].
Qed.

End Fuel.

#[global] Hint Rewrite @set_status_eq @set_body_eq : closed.


(** ** The blocks of the body setter *)

Section Blocks.
Context `{Imports}.

Lemma default_status_eq w :
  statuses_empty 200 = false →
  Responce.default_status status_result w = (Ok tt, defaulted w).
Proof.
  intros H200. unfold Responce.default_status, defaulted, status_result.
  run. destruct (_explicitStatus (response w)); [reflexivity|].
  destruct (headersSent (res w)) eqn:Hs; run; reflexivity.
Qed.

Lemma defaulted_explicit w :
  _explicitStatus (response w) = true → defaulted w = w.
Proof. intros E. unfold defaulted. by rewrite E. Qed.

Lemma defaulted_headers w : outHeaders (res (defaulted w)) = outHeaders (res w).
Proof. unfold defaulted. by destruct (_ || _). Qed.

Lemma defaulted_sent w : headersSent (res (defaulted w)) = headersSent (res w).
Proof. unfold defaulted. by destruct (_ || _). Qed.

Lemma defaulted_body w : _body (response (defaulted w)) = _body (response w).
Proof. unfold defaulted. by destruct (_ || _). Qed.

Lemma defaulted_cache w : typeLRUCache (defaulted w) = typeLRUCache w.
Proof. unfold defaulted. by destruct (_ || _). Qed.

Lemma defaulted_req w : req (defaulted w) = req w.
Proof. unfold defaulted. by destruct (_ || _). Qed.

Lemma defaulted_request w : request (defaulted w) = request w.
Proof. unfold defaulted. by destruct (_ || _). Qed.

End Blocks.

#[global] Hint Rewrite @default_status_eq using assumption : run.
#[global] Hint Rewrite @defaulted_headers @defaulted_sent @defaulted_body
  @defaulted_cache @defaulted_req @defaulted_request : run.

Section BodySpec.
Context `{Imports}.

Lemma string_body_spec (setType : bool) (s : string) (w : World) r w' :
  Responce.string_body setType s w = (r, w') →
  r = Ok tt
  ∧ outHeaders (res w')
    = length_headers (of_nat (String.length s)) (headersSent (res w))
        (fallback_headers (if Js.test_leading_lt s then "html" else "text")
           (headersSent (res w)) (typeLRUCache w) setType
           (outHeaders (res w)))
  ∧ headers_only w w'.
Proof.
  unfold Responce.string_body, length_headers, fallback_headers,
    type_headers, headers_only.
  destruct setType; paths; done.
Qed.

Lemma buffer_body_spec (setType : bool) (bytes : list Byte.byte) (w : World)
    r w' :
  Responce.buffer_body setType bytes w = (r, w') →
  r = Ok tt
  ∧ outHeaders (res w')
    = length_headers (of_nat (List.length bytes)) (headersSent (res w))
        (fallback_headers "bin" (headersSent (res w)) (typeLRUCache w)
           setType (outHeaders (res w)))
  ∧ headers_only w w'.
Proof.
  unfold Responce.buffer_body, length_headers, fallback_headers,
    type_headers, headers_only.
  destruct setType; paths; done.
Qed.

Lemma stream_body_spec (setType : bool) (original : Value) (id : nat)
    (w : World) r w' :
  Responce.stream_body setType original id w = (r, w') →
  r = Ok tt
  ∧ outHeaders (res w')
    = fallback_headers "bin" (headersSent (res w)) (typeLRUCache w) setType
        (overwrite_headers original id (headersSent (res w))
           (outHeaders (res w)))
  ∧ headers_only w w'.
Proof.
  unfold Responce.stream_body, overwrite_headers, fallback_headers,
    type_headers, headers_only.
  destruct setType; paths; done.
Qed.

(** Assigning a string, buffer or stream body, when 200 is not a no-body
    status: the assignment succeeds, stores the body, rewrites the entity
    headers as [entity_headers] says, and changes the status only when it
    had not been set explicitly. *)
Lemma set_body_fallback_spec (val : Value) (w : World) r w' :
  statuses_empty 200 = false →
  sets_fallback val = true →
  Responce.set_body val w = (r, w') →
  r = Ok tt
  ∧ outHeaders (res w')
    = entity_headers val (_body (response w)) (headersSent (res w))
        (typeLRUCache w) (outHeaders (res w))
  ∧ headersSent (res w') = headersSent (res w)
  ∧ _body (response w') = val
  ∧ (_explicitStatus (response w) = true →
     statusCode (res w') = statusCode (res w))
  ∧ req w' = req w ∧ request w' = request w.
Proof.
  intros H200 Hk. rewrite set_body_eq.
  unfold Responce.body_value, entity_headers, fallback_type.
  destruct val; try discriminate; run; intros E.
  - apply string_body_spec in E as (-> & Hh & Hs & Hc & Hr & Hq & Ht).
    revert Hh Hs Hc Hr Hq Ht. run.
    intros Hh Hs Hc -> -> ->. rewrite Hh, Hs. cbn.
    repeat split; rewrite ?defaulted_body; try done.
    intros Hx. rewrite Hc. by rewrite defaulted_explicit.
  - apply buffer_body_spec in E as (-> & Hh & Hs & Hc & Hr & Hq & Ht).
    revert Hh Hs Hc Hr Hq Ht. run.
    intros Hh Hs Hc -> -> ->. rewrite Hh, Hs. cbn.
    repeat split; rewrite ?defaulted_body; try done.
    intros Hx. rewrite Hc. by rewrite defaulted_explicit.
  - apply stream_body_spec in E as (-> & Hh & Hs & Hc & Hr & Hq & Ht).
    revert Hh Hs Hc Hr Hq Ht. run.
    intros Hh Hs Hc -> -> ->. rewrite Hh, Hs. cbn.
    repeat split; rewrite ?defaulted_body; try done.
    intros Hx. rewrite Hc. by rewrite defaulted_explicit.
Qed.

End BodySpec.

(** ** Lookups in the header tables of the closed forms *)

Section Lookups.
Context `{Imports}.
Implicit Types (hs : gmap string HeaderValue) (k : string).

Lemma type_headers_other name sent c hs k :
  k ≠ "content-type" → type_headers name sent c hs !! k = hs !! k.
Proof.
  intros Hk. unfold type_headers. destruct sent; [done|]. cbv zeta.
  destruct (truthy_str _); by rewrite ?lookup_insert_ne, ?lookup_delete_ne.
Qed.

Lemma type_headers_type name c hs m :
  coherent c → mime_contentType name = Some m → nonempty m = true →
  type_headers name false c hs !! "content-type" = Some (HStr m).
Proof.
  intros Hc Hm Hne. unfold type_headers. cbv zeta.
  destruct (cache_lookup_coherent name c Hc) as [-> _]. rewrite Hm. cbn.
  rewrite Hne. by rewrite lookup_insert_eq.
Qed.

Lemma fallback_headers_other name sent c setType hs k :
  k ≠ "content-type" →
  fallback_headers name sent c setType hs !! k = hs !! k.
Proof.
  intros Hk. unfold fallback_headers. destruct setType; [|done].
  by apply type_headers_other.
Qed.

Lemma length_headers_other n sent hs k :
  k ≠ "content-length" → length_headers n sent hs !! k = hs !! k.
Proof.
  intros Hk. unfold length_headers. destruct (is_set _); [done|].
  destruct sent; [done|]. by rewrite lookup_insert_ne.
Qed.

Lemma length_headers_chunked n sent hs :
  is_set (hs !! "transfer-encoding") = true → length_headers n sent hs = hs.
Proof. intros E. unfold length_headers. by rewrite E. Qed.

Lemma length_headers_length n hs :
  is_set (hs !! "transfer-encoding") = false →
  length_headers n false hs !! "content-length"
  = Some (HStr (String_number n)).
Proof.
  intros E. unfold length_headers. rewrite E. by rewrite lookup_insert_eq.
Qed.

Lemma overwrite_headers_other original id sent hs k :
  k ≠ "content-length" → overwrite_headers original id sent hs !! k = hs !! k.
Proof.
  intros Hk. unfold overwrite_headers.
  destruct (differs_from_stream _ _); [|done].
  destruct (negb _); [|done]. destruct sent; [done|].
  by rewrite lookup_delete_ne.
Qed.

(** The content type survives every fallback kind when it is present. *)
Lemma entity_headers_type_kept val original sent c hs ct :
  hs !! "content-type" = Some ct →
  entity_headers val original sent c hs !! "content-type" = Some ct.
Proof.
  intros Hct. unfold entity_headers. rewrite Hct. cbn [is_set negb].
  unfold fallback_headers.
  destruct val; rewrite ?length_headers_other, ?overwrite_headers_other by done;
    done.
Qed.

(** The fallback type is written when none is present. *)
Lemma entity_headers_type_set val original c hs m :
  sets_fallback val = true →
  hs !! "content-type" = None →
  coherent c → mime_contentType (fallback_type val) = Some m →
  nonempty m = true →
  entity_headers val original false c hs !! "content-type" = Some (HStr m).
Proof.
  intros Hk Hct Hc Hm Hne. unfold entity_headers. rewrite Hct.
  cbn [is_set negb]. unfold fallback_headers.
  destruct val; try discriminate;
    rewrite ?length_headers_other by done; by apply type_headers_type.
Qed.

(** Headers other than the three entity headers are never touched. *)
Lemma entity_headers_other val original sent c hs k :
  k ≠ "content-type" → k ≠ "content-length" →
  entity_headers val original sent c hs !! k = hs !! k.
Proof.
  intros Hk1 Hk2. unfold entity_headers.
  destruct val;
    rewrite ?length_headers_other, ?fallback_headers_other,
      ?overwrite_headers_other by done; done.
Qed.

End Lookups.

(** ** The response: status, headers and body *)

Section ResponseClaims.
Context `{Imports}.


(** C2: when the status is outside the no-body family and the content
    type, parameters stripped, is application/json, [body = null] stores
    the four-character string "null" and leaves the status (indeed the
    whole outgoing message) as it was. *)
Theorem C2_null_body_json (w : World) :
  statuses_empty (statusCode (res w)) = false →
  fst (Responce.type w) = Ok "application/json" →
  let w' := snd (Responce.set_body VNull w) in
  fst (Responce.set_body VNull w) = Ok tt
  ∧ fst (Responce.body w') = Ok (VString "null")
  ∧ String.length "null" = 4%nat
  ∧ fst (Responce.status w') = fst (Responce.status w)
  ∧ res w' = res w.
Proof.
  intros He Ht. rewrite type_eq in Ht; cbn in Ht.
  destruct (Responce.set_body VNull w) as [r w'] eqn:E. revert E.
  start. paths. done.
Qed.

(** C3 (amended): on a response whose headers are not sent and whose body
    is truthy (not null or undefined, and not the empty string, [false],
    [0] or [NaN]), assigning a status code of the no-body family clears the
    body to null and removes Content-Type, Content-Length and
    Transfer-Encoding. *)
Theorem C3_empty_status_clears_truthy_body (w : World) (c : Z) :
  headersSent (res w) = false →
  truthy (_body (response w)) = true →
  100 ≤ c ≤ 999 →
  statuses_empty c = true →
  let w' := snd (Responce.set_status (of_Z c) w) in
  fst (Responce.set_status (of_Z c) w) = Ok tt
  ∧ fst (Responce.status w') = Ok c
  ∧ fst (Responce.body w') = Ok VNull
  ∧ fst (Responce.has "Content-Type" w') = Ok false
  ∧ fst (Responce.has "Content-Length" w') = Ok false
  ∧ fst (Responce.has "Transfer-Encoding" w') = Ok false.
Proof.
  intros Hs Hb [Hlo Hhi] He.
  apply Z.leb_le in Hlo, Hhi.
  destruct (Responce.set_status (of_Z c) w) as [r w'] eqn:E. revert E.
  start. run. rewrite Hlo, Hhi. paths. done.
Qed.

(** C4: once the headers are sent, [set] (in both forms), [remove], [vary]
    and an assignment to [status] return normally and leave the store,
    hence the headers and the status code, exactly as they were. *)
Theorem C4_frozen_after_headers_sent
    (w : World) (field : string) (val : Value)
    (fields : list (string * Value)) (code : number) :
  headersSent (res w) = true →
  Responce.set field val w = (Ok tt, w)
  ∧ Responce.set_object fields w = (Ok tt, w)
  ∧ Responce.remove field w = (Ok tt, w)
  ∧ Responce.vary field w = (Ok tt, w)
  ∧ Responce.set_status code w = (Ok tt, w).
Proof.
  intros Hs. repeat split.
  - by rewrite set_eq, Hs.
  - unfold Responce.set_object, bind, Responce.headerSent, gets; cbn.
    by rewrite Hs.
  - by rewrite remove_eq, Hs.
  - unfold Responce.vary, bind, Responce.headerSent, gets; cbn.
    by rewrite Hs.
  - rewrite set_status_eq. unfold status_result. by rewrite Hs.
Qed.

(** C5 (amended): on a response whose headers are not sent, every integer
    [c] with [100 <= c <= 999] is accepted and becomes the status; a value
    that is not an integer, or an integer outside that range, makes the
    assignment throw an assertion error and leaves the store untouched
    (nothing is clamped). *)
Theorem C5_status_validated_before_headers_sent (w : World) :
  headersSent (res w) = false →
  (∀ code : number, Number_isInteger code = true →
     100 ≤ to_Z code ≤ 999 →
     fst (Responce.set_status code w) = Ok tt
     ∧ fst (Responce.status (snd (Responce.set_status code w)))
       = Ok (to_Z code))
  ∧ (∀ code : number, Number_isInteger code = false →
       Responce.set_status code w
       = (Throw (AssertionError "status code must be a number"), w))
  ∧ (∀ code : number, Number_isInteger code = true →
       ¬ (100 ≤ to_Z code ≤ 999) →
       Responce.set_status code w
       = (Throw (AssertionError
                   ("invalid status code: " +:+ String_number code)), w)).
Proof.
  intros Hs. split; [|split].
  - intros code Hi [Hlo Hhi]. apply Z.leb_le in Hlo, Hhi.
    destruct (Responce.set_status code w) as [r w'] eqn:E. revert E.
    start. rewrite Hs, Hi, (integral_range code Hi), Hlo, Hhi. paths; done.
  - intros code Hi. rewrite set_status_eq. unfold status_result.
    by rewrite Hs, Hi.
  - intros code Hi Hr. rewrite set_status_eq. unfold status_result.
    rewrite Hs, Hi, (integral_range code Hi). cbn [negb].
    destruct ((100 <=? to_Z code) && (to_Z code <=? 999)) eqn:E; [|done].
    apply andb_prop in E as [?%Z.leb_le ?%Z.leb_le]. lia.
Qed.

(** C6 (amended): assigning a string, buffer or stream body to a response
    that already has a Content-Type header leaves that header unchanged;
    these bodies set their fallback type only when no Content-Type is
    present, and then they do set it. *)
Theorem C6_explicit_type_kept (w : World) (val : Value) :
  statuses_empty 200 = false →
  sets_fallback val = true →
  let w' := snd (Responce.set_body val w) in
  fst (Responce.set_body val w) = Ok tt
  ∧ (∀ ct, fst (Responce.get "Content-Type" w) = Ok (Some ct) →
       fst (Responce.get "Content-Type" w') = Ok (Some ct))
  ∧ (∀ m, fst (Responce.has "Content-Type" w) = Ok false →
       headersSent (res w) = false →
       coherent (typeLRUCache w) →
       mime_contentType (fallback_type val) = Some m →
       nonempty m = true →
       fst (Responce.get "Content-Type" w') = Ok (Some (HStr m))).
Proof.
  intros H200 Hk w'. subst w'.
  destruct (Responce.set_body val w) as [r w'] eqn:E.
  apply set_body_fallback_spec in E as (-> & Hh & _); [|done..].
  cbn [fst snd]. rewrite !get_eq, has_eq, Names.content_type; cbn [fst].
  rewrite Hh. split; [done|]. split.
  - intros ct [= Hct]. by rewrite (entity_headers_type_kept _ _ _ _ _ ct).
  - intros m Hct Hs Hc Hm Hne. rewrite Hs.
    destruct (outHeaders (res w) !! "content-type") eqn:Hct'; [done|].
    by rewrite (entity_headers_type_set _ _ _ _ m).
Qed.

(** C7 (amended): on a response whose headers are not sent and that has
    neither a Content-Type nor a Transfer-Encoding header, assigning a
    string [s] as body makes the type [text/html] when [s] starts with "<"
    after leading white space and [text/plain] otherwise, and makes
    [length] the byte length of [s]. *)
Theorem C7_string_body_type_and_length (w : World) (s : string) :
  headersSent (res w) = false →
  fst (Responce.has "Content-Type" w) = Ok false →
  fst (Responce.has "Transfer-Encoding" w) = Ok false →
  statuses_empty 200 = false →
  coherent (typeLRUCache w) →
  mime_contentType "text" = Some "text/plain; charset=utf-8" →
  mime_contentType "html" = Some "text/html; charset=utf-8" →
  let w' := snd (Responce.set_body (VString s) w) in
  fst (Responce.set_body (VString s) w) = Ok tt
  ∧ fst (Responce.type w')
    = Ok (if Js.test_leading_lt s then "text/html" else "text/plain")
  ∧ fst (Responce.length w') = Ok (Some (of_nat (String.length s))).
Proof.
  intros Hs Hct Hte H200 Hc Htext Hhtml w'. subst w'.
  rewrite has_eq, Names.content_type in Hct.
  rewrite has_eq, Names.transfer_encoding in Hte. cbn in Hct, Hte.
  destruct (outHeaders (res w) !! "content-type") eqn:Hct'; [done|].
  destruct (outHeaders (res w) !! "transfer-encoding") eqn:Hte'; [done|].
  clear Hct Hte.
  destruct (Responce.set_body (VString s) w) as [r w'] eqn:E.
  apply set_body_fallback_spec in E as (-> & Hh & _); [|done..].
  cbn [fst snd]. split; [done|].
  assert (outHeaders (res w') !! "content-type"
          = Some (HStr (if Js.test_leading_lt s
                        then "text/html; charset=utf-8"
                        else "text/plain; charset=utf-8"))) as Ht.
  { rewrite Hh, Hs. apply entity_headers_type_set; try done.
    - cbn. by destruct (Js.test_leading_lt s).
    - by destruct (Js.test_leading_lt s). }
  assert (outHeaders (res w') !! "content-length"
          = Some (HStr (String_number (of_nat (String.length s))))) as Hl.
  { rewrite Hh, Hs. unfold entity_headers. apply length_headers_length.
    by rewrite fallback_headers_other, Hte'. }
  split.
  - rewrite type_eq. cbn [fst]. unfold type_of. rewrite Ht.
    by destruct (Js.test_leading_lt s).
  - unfold Responce.length. run. by rewrite parseInt_String_number.
Qed.

(** C10: while a Transfer-Encoding header is present, assigning [length]
    does nothing, so a string or buffer body leaves the Content-Length
    header as it was: absent if it was absent. *)
Theorem C10_length_ignored_under_transfer_encoding (w : World) (val : Value) :
  fst (Responce.has "Transfer-Encoding" w) = Ok true →
  statuses_empty 200 = false →
  sets_length val = true →
  let w' := snd (Responce.set_body val w) in
  (∀ n, Responce.set_length n w = (Ok tt, w))
  ∧ fst (Responce.set_body val w) = Ok tt
  ∧ fst (Responce.get "Content-Length" w')
    = fst (Responce.get "Content-Length" w)
  ∧ (fst (Responce.has "Content-Length" w) = Ok false →
     fst (Responce.has "Content-Length" w') = Ok false).
Proof.
  intros Hte H200 Hk w'. subst w'.
  rewrite has_eq, Names.transfer_encoding in Hte. injection Hte as Hte.
  split.
  { intros n. rewrite set_length_eq. by rewrite Hte. }
  destruct (Responce.set_body val w) as [r w'] eqn:E.
  apply set_body_fallback_spec in E as (-> & Hh & _);
    [|done|by destruct val].
  cbn [fst snd]. rewrite !get_eq, !has_eq, Names.content_length; cbn [fst].
  assert (outHeaders (res w') !! "content-length"
          = outHeaders (res w) !! "content-length") as ->; [|done].
  rewrite Hh. unfold entity_headers.
  destruct val; try done;
    (rewrite length_headers_chunked;
     [|by rewrite fallback_headers_other]);
    by rewrite fallback_headers_other.
Qed.

End ResponseClaims.

(** ** Redirects *)

Section Redirect.
Context `{Imports}.

Lemma request_get_eq field w :
  Request.get field w = (Ok (request_header field w), w).
Proof.
  unfold request_header, Request.get, bind, bind_result, gets.
  by destruct (_ || _).
Qed.

Lemma accepts_spec args w r w' :
  Request.accepts args w = (r, w') →
  r = Ok (negotiated args w)
  ∧ res w' = res w ∧ response w' = response w ∧ req w' = req w
  ∧ typeLRUCache w' = typeLRUCache w.
Proof.
  unfold Request.accepts, Request.accept, negotiated, negotiator.
  run. destruct (_accept (request w)) as [[|types]|]; run;
    intros [= <- <-]; done.
Qed.

Lemma set_type_spec t w r w' :
  Responce.set_type t w = (r, w') →
  r = Ok tt
  ∧ outHeaders (res w')
    = type_headers t (headersSent (res w)) (typeLRUCache w)
        (outHeaders (res w))
  ∧ headers_only w w'.
Proof. unfold type_headers, headers_only. paths; done. Qed.

(** The body block of [redirect]: it leaves every header but the entity
    headers alone, keeps an explicitly set status, and stores the HTML or
    the text body as the negotiator decides. *)
Lemma redirect_body_spec (url : string) (w : World) r w' :
  statuses_empty 200 = false →
  Responce.redirect_body url w = (r, w') →
  r = Ok tt
  ∧ outHeaders (res w') !! "location" = outHeaders (res w) !! "location"
  ∧ (_explicitStatus (response w) = true →
     statusCode (res w') = statusCode (res w))
  ∧ _body (response w')
    = VString (if truthy_str (negotiated ["html"] w)
               then html_redirect (escape url)
               else text_redirect url).
Proof.
  intros H200. unfold Responce.redirect_body, Context.accepts.
  rewrite bind_eq.
  destruct (Request.accepts ["html"] w) as [ra w1] eqn:Ea.
  apply accepts_spec in Ea as (-> & Hres1 & Hresp1 & Hreq1 & Hc1).
  cbn [bind_result].
  destruct (truthy_str (negotiated ["html"] w)); rewrite bind_eq;
    destruct (Responce.set_type _ w1) as [rt w2] eqn:Et;
    apply set_type_spec in Et as (-> & Hh2 & Hs2 & Hst2 & Hresp2 & _);
    cbn [bind_result]; intros E;
    apply set_body_fallback_spec in E as (-> & Hh & _ & Hb & Hx & _);
    try done;
    (split; [done|]); rewrite Hh, entity_headers_other by done;
    rewrite Hh2, type_headers_other by done; rewrite Hres1;
    (split; [done|]); (split; [|done]);
    intros Hx0; rewrite Hx, Hst2, Hres1 by (by rewrite Hresp2, Hresp1); done.
Qed.

(** C8: [redirect] does none of what is claimed.  For every URL and every
    [alt], whether the headers are sent or not, the call throws a
    ReferenceError where it evaluates [encodeUrl], and leaves the store as
    it was: no Location header, no status, no body. *)
Theorem C8_redirect_throws_at_encodeUrl (url : string) (alt : option string)
    (w : World) :
  Responce.redirect url alt w
  = (Throw (ReferenceError "encodeUrl is not defined"), w).
Proof.
  unfold Responce.redirect, Context.get, unbound.
  destruct (String.eqb url "back"); run; [|done].
  rewrite request_get_eq. by run.
Qed.

End Redirect.

(** ** The request: the memoized URL *)

Section RequestClaims.
Context `{Imports}.

Lemma or_else_same s : or_else (Some s) "" = s.
Proof.
  unfold or_else, nonempty. destruct (String.eqb s "") eqn:E; [|done].
  by apply String.eqb_eq in E.
Qed.

(** [protocol], [host] and [origin] read the store and either answer or
    throw; they never change it. *)
Lemma protocol_cases w :
  (∃ p, Request.protocol w = (Ok p, w))
  ∨ (∃ e, Request.protocol w = (Throw e, w)).
Proof.
  unfold Request.protocol, Request.socket_.
  run. destruct (socket (req w)) as [sock|]; run; [|eauto].
  destruct (encrypted sock); run; [eauto|].
  destruct (proxy (app w)); run; [|eauto].
  rewrite request_get_eq. run. eauto.
Qed.

Lemma host_cases w : ∃ h, Request.host w = (Ok h, w).
Proof.
  unfold Request.host. run.
  repeat (first
            [ rewrite request_get_eq
            | match goal with
              | |- context [if ?c then _ else _] => destruct c
              end ]; run);
    eauto.
Qed.

Lemma origin_cases w :
  (∃ o, Request.origin w = (Ok o, w))
  ∨ (∃ e, Request.origin w = (Throw e, w)).
Proof.
  unfold Request.origin. rewrite bind_eq.
  destruct (protocol_cases w) as [[p ->]|[e ->]]; cbn [bind_result];
    [|eauto].
  rewrite bind_eq. destruct (host_cases w) as [h ->]. cbn. eauto.
Qed.

(** C9: reading [URL] never throws.  The first read allocates one object,
    the URL parsed from [origin + originalUrl] or the empty object when
    that fails, and memoizes its reference; every read returns the
    memoized reference, and a read that finds it leaves the store
    untouched, so nothing is parsed again. *)
Theorem C9_URL_memoized_never_throws (w : World) :
  ∃ a : nat,
    let w' := snd (Request.URL w) in
    fst (Request.URL w) = Ok (Some a)
    ∧ memoizedURL (request w') = Some a
    ∧ Request.URL w' = (Ok (Some a), w')
    ∧ match memoizedURL (request w) with
      | None => a = length (heap w)
                ∧ heap w' = (heap w ++ [constructed w])%list
      | Some a0 => a = a0 ∧ w' = w
      end.
Proof.
  destruct (memoizedURL (request w)) as [a0|] eqn:Hm.
  - exists a0.
    assert (Request.URL w = (Ok (Some a0), w)) as E.
    { unfold Request.URL. run. done. }
    rewrite E. cbn [fst snd]. by rewrite E.
  - exists (length (heap w)).
    assert (Request.URL w
            = (Ok (Some (length (heap w))),
               with_request (set_memoizedURL (Some (length (heap w))))
                 (with_heap (λ h, (h ++ [constructed w])%list) w))) as E.
    { unfold Request.URL. run.
      pose proof (or_else_same (originalUrl (request w))) as Hou.
      unfold or_else in Hou. rewrite Hou.
      unfold try_catch, constructed, Request.alloc. rewrite !bind_eq.
      destruct (origin_cases w) as [[o ->]|[e ->]]; cbn [bind_result fst].
      - destruct (URL_new (o +:+ originalUrl (request w))) as [u|]; by run.
      - by run. }
    rewrite E. cbn [fst snd]. repeat split.
Qed.

End RequestClaims.

(** * Further properties of the code *)

(** ** common.ts *)

Section CommonProperties.
Context `{Imports}.

Lemma mentions_cons key k keys :
  mentions key (k :: keys) = String.eqb key k || mentions key keys.
Proof. reflexivity. Qed.

Lemma assign_table key v own :
  String.eqb key "__proto__" = false →
  Common.assign key v (Common.Table own) = Common.Table (<[key := v]> own).
Proof. intros E. unfold Common.assign. by rewrite E. Qed.

(** The loop of [only], from any table built so far. *)
Lemma only_loop (obj : string → Value) keys own0 :
  mentions "__proto__" keys = false →
  ∃ own,
    fold_left (λ ret key, if nullish (obj key) then ret
                          else Common.assign key (obj key) ret)
              keys (Common.Table own0)
    = Common.Table own
    ∧ ∀ k, own !! k
           = if mentions k keys && negb (nullish (obj k))
             then Some (obj k) else own0 !! k.
Proof.
  revert own0. induction keys as [|key keys IH]; intros own0 Hp.
  { exists own0. by split. }
  rewrite mentions_cons in Hp. apply Bool.orb_false_iff in Hp as [Hk Hp].
  cbn [fold_left]. destruct (nullish (obj key)) eqn:Hn.
  - destruct (IH own0 Hp) as (own & -> & Hown). exists own.
    split; [done|]. intros k. rewrite Hown, mentions_cons.
    destruct (String.eqb k key) eqn:E; [|done].
    apply String.eqb_eq in E as ->. rewrite Hn. cbn.
    by rewrite Bool.andb_false_r.
  - rewrite assign_table by (by rewrite String.eqb_sym).
    destruct (IH (<[key := obj key]> own0) Hp) as (own & -> & Hown).
    exists own. split; [done|]. intros k. rewrite Hown, mentions_cons.
    destruct (String.eqb k key) eqn:E.
    + apply String.eqb_eq in E as ->. rewrite Hn, lookup_insert_eq. cbn.
      by destruct (mentions key keys).
    + apply String.eqb_neq in E. rewrite lookup_insert_ne by done. done.
Qed.

(** X1: for a list of keys without [__proto__], [only(obj, keys)] is the
    object whose own properties are exactly the listed keys at which
    [obj] holds a value other than null and undefined, each with the value
    [obj] holds there; no property of the result is null or undefined. *)
Theorem only_picks_defined_keys (obj : string → Value) (keys : list string) :
  mentions "__proto__" keys = false →
  ∃ own,
    Common.only obj keys = Common.Table own
    ∧ (∀ k, own !! k
            = if mentions k keys && negb (nullish (obj k))
              then Some (obj k) else None)
    ∧ (∀ k v, own !! k = Some v → nullish v = false).
Proof.
  intros Hp. destruct (only_loop obj keys ∅ Hp) as (own & E & Hown).
  exists own. split; [exact E|]. split.
  - intros k. rewrite Hown. by rewrite lookup_empty.
  - intros k v. rewrite Hown, lookup_empty.
    destruct (mentions k keys); cbn; [|done].
    destruct (nullish (obj k)) eqn:Hn; cbn; [done|]. by intros [= <-].
Qed.

(** X2: while every cached entry is what the MIME package answers for its
    key, [getType(type)] answers what [mimeTypes.contentType(type)]
    answers, changes nothing but the cache, and leaves the cache in that
    same condition. *)
Theorem getType_answers_as_the_package (type : string) (w : World) :
  coherent (typeLRUCache w) →
  let w' := snd (Common.getType type w) in
  fst (Common.getType type w) = Ok (mime_contentType type)
  ∧ coherent (typeLRUCache w')
  ∧ res w' = res w ∧ req w' = req w ∧ response w' = response w
  ∧ request w' = request w.
Proof.
  intros Hc w'. subst w'. rewrite getType_eq. cbn [fst snd].
  destruct (cache_lookup_coherent type _ Hc) as [-> Hc'].
  by repeat split.
Qed.

End CommonProperties.

(** ** Strings: the two [split] idioms *)

Section Splits.

Lemma append_empty s : "" +:+ s = s.
Proof. reflexivity. Qed.

Lemma append_String c a s : String c a +:+ s = String c (a +:+ s).
Proof. reflexivity. Qed.

Lemma occurs_split_first c s : occurs c (Js.split_first c s) = false.
Proof.
  induction s as [|d r IH]; [done|]. cbn [Js.split_first].
  destruct (Ascii.eqb d c) eqn:E; [done|]. cbn [occurs].
  by rewrite Ascii.eqb_sym, E, IH.
Qed.

Lemma split_first_before c a r :
  occurs c a = false → Js.split_first c (a +:+ String c r) = a.
Proof.
  induction a as [|d a IH];
    rewrite ?append_empty, ?append_String; cbn [occurs Js.split_first].
  - by rewrite Ascii.eqb_refl.
  - intros Ho. apply Bool.orb_false_iff in Ho as [Hd Ha].
    by rewrite Ascii.eqb_sym, Hd, IH.
Qed.

Lemma split_first_all c a : occurs c a = false → Js.split_first c a = a.
Proof.
  induction a as [|d a IH]; cbn [occurs Js.split_first]; [done|].
  intros Ho. apply Bool.orb_false_iff in Ho as [Hd Ha].
  by rewrite Ascii.eqb_sym, Hd, IH.
Qed.

Lemma plain_char_spec c :
  plain_char c = true →
  (N_of_ascii c < 128)%N ∧ Js.space1 c = false ∧ N_of_ascii c ≠ 44%N.
Proof.
  unfold plain_char. cbv zeta.
  rewrite !Bool.andb_true_iff, !Bool.negb_true_iff, N.ltb_lt, N.eqb_neq.
  tauto.
Qed.

Lemma skip_space_plain c r :
  plain_char c = true → Js.skip_space (String c r) = String c r.
Proof.
  intros (Hlt & Hs & _)%plain_char_spec. cbn [Js.skip_space]. rewrite Hs.
  assert (∀ k, (128 <= k)%N → Js.byte_is c k = false) as Hb.
  { intros k Hk. unfold Js.byte_is. apply N.eqb_neq. lia. }
  destruct r as [|c2 [|c3 r3]]; try done;
    unfold Js.space2, Js.space3; rewrite !Hb by lia; done.
Qed.

Lemma skip_space_comma r : Js.skip_space (String "," r) = String "," r.
Proof. by destruct r as [|c2 [|c3 r3]]. Qed.

Lemma skip_space_blank sp r :
  blank sp = true → Js.skip_space (sp +:+ String "," r) = String "," r.
Proof.
  induction sp as [|c sp IH]; rewrite ?append_empty, ?append_String.
  - intros _. apply skip_space_comma.
  - cbn [blank]. intros [Hc Hsp]%Bool.andb_true_iff.
    cbn [Js.skip_space]. rewrite Hc. auto.
Qed.

Lemma split_comma_first_blank sp r :
  blank sp = true → Js.split_comma_first (sp +:+ String "," r) = "".
Proof.
  intros Hsp. pose proof (skip_space_blank sp r Hsp) as E.
  destruct sp as [|c sp]; rewrite ?append_empty, ?append_String in *;
    cbn [Js.split_comma_first]; by rewrite E.
Qed.

(** [s.split(/\s*,\s*/, 1)[0]] is the first element of a comma-separated
    list, without the white space before the comma. *)
Lemma split_comma_first_list a sp r :
  plain a = true → blank sp = true →
  Js.split_comma_first (a +:+ sp +:+ String "," r) = a.
Proof.
  intros Ha Hsp. induction a as [|c a IH];
    rewrite ?append_empty, ?append_String.
  - by apply split_comma_first_blank.
  - cbn [plain] in Ha. apply Bool.andb_true_iff in Ha as [Hc Ha].
    cbn [Js.split_comma_first]. rewrite skip_space_plain by done.
    apply plain_char_spec in Hc as (_ & _ & Hc).
    assert (Js.starts_with "," (String c (a +:+ sp +:+ String "," r)) = false)
      as ->.
    { cbn [Js.starts_with]. apply Ascii.eqb_neq. intros <-. by apply Hc. }
    by rewrite IH.
Qed.

Lemma split_comma_first_plain a : plain a = true → Js.split_comma_first a = a.
Proof.
  induction a as [|c a IH]; [done|]. cbn [plain].
  intros [Hc Ha]%Bool.andb_true_iff.
  cbn [Js.split_comma_first]. rewrite skip_space_plain by done.
  apply plain_char_spec in Hc as (_ & _ & Hc).
  assert (Js.starts_with "," (String c a) = false) as ->.
  { cbn [Js.starts_with]. apply Ascii.eqb_neq. intros <-. by apply Hc. }
  by rewrite IH.
Qed.

End Splits.

(** ** Header names *)

Module Fields.

Lemma x_forwarded_host :
  Js.toLowerCase "X-Forwarded-Host" = "x-forwarded-host".
Proof. reflexivity. Qed.

Lemma x_forwarded_proto :
  Js.toLowerCase "X-Forwarded-Proto" = "x-forwarded-proto".
Proof. reflexivity. Qed.

Lemma authority : Js.toLowerCase ":authority" = ":authority".
Proof. reflexivity. Qed.

Lemma host : Js.toLowerCase "Host" = "host".
Proof. reflexivity. Qed.

Lemma etag : Js.toLowerCase "ETag" = "etag".
Proof. reflexivity. Qed.

End Fields.

#[global] Hint Rewrite Fields.x_forwarded_host Fields.x_forwarded_proto
  Fields.authority Fields.host Fields.etag Names.content_type : run.


(** ** The request facade *)

Section RequestProperties.
Context `{Imports}.

Lemma request_get_incoming field w :
  String.eqb (Js.toLowerCase field) "referer"
  || String.eqb (Js.toLowerCase field) "referrer" = false →
  Request.get field w = (Ok (incoming (Js.toLowerCase field) w), w).
Proof. intros E. unfold Request.get, incoming. run. by rewrite E. Qed.

Lemma request_get_referrer field w :
  String.eqb (Js.toLowerCase field) "referer"
  || String.eqb (Js.toLowerCase field) "referrer" = true →
  Request.get field w
  = (Ok (or_else (headers (req w) !! "referrer") (incoming "referer" w)), w).
Proof. intros E. unfold Request.get, incoming. run. by rewrite E. Qed.

(** X3: [get] reads the Referer header under either spelling and in any
    letter case: the field [referrer] of the incoming headers when it is
    not empty, the field [referer] otherwise, and the empty string when
    neither is there. *)
Theorem request_get_referrer_alias (field : string) (w : World) :
  Js.toLowerCase field = "referer" ∨ Js.toLowerCase field = "referrer" →
  Request.get field w = Request.get "Referrer" w
  ∧ Request.get field w = Request.get "Referer" w
  ∧ Request.get field w
    = (Ok (or_else (headers (req w) !! "referrer")
             (or_else (headers (req w) !! "referer") "")), w).
Proof.
  intros Hf.
  assert (String.eqb (Js.toLowerCase field) "referer"
          || String.eqb (Js.toLowerCase field) "referrer" = true) as E.
  { by destruct Hf as [-> | ->]. }
  rewrite !request_get_referrer by done. done.
Qed.

Lemma protocol_eq w sock :
  socket (req w) = Some sock →
  Request.protocol w
  = (Ok (if encrypted sock then "https"
         else if negb (proxy (app w)) then "http"
         else if nonempty (incoming "x-forwarded-proto" w)
              then Js.split_comma_first (incoming "x-forwarded-proto" w)
              else "http"), w).
Proof.
  intros Hs. unfold Request.protocol, Request.socket_. run.
  destruct (encrypted sock); run; [done|].
  destruct (proxy (app w)); run; [|done].
  rewrite request_get_incoming by done. by run.
Qed.

Lemma nonempty_false s : nonempty s = false → s = "".
Proof. by intros ->%Bool.negb_false_iff%String.eqb_eq. Qed.

Lemma host_eq w :
  let fwd := if proxy (app w) then incoming "x-forwarded-host" w else "" in
  let auth := if 2 <=? httpVersionMajor (req w)
              then incoming ":authority" w else "" in
  let raw := if nonempty fwd then fwd
             else if nonempty auth then auth else incoming "host" w in
  Request.host w = (Ok (Js.split_comma_first raw), w).
Proof.
  unfold Request.host.
  destruct (proxy (app w)) eqn:Hp, (2 <=? httpVersionMajor (req w)) eqn:Hm;
    cbv zeta; run; rewrite ?Hp, ?Hm; run;
    repeat (first
              [ rewrite request_get_incoming by done
              | match goal with
                | |- context [if nonempty ?x then _ else _] =>
                  destruct (nonempty x) eqn:?
                end ]; run);
    try done;
    repeat match goal with
           | E : nonempty ?x = false |- _ =>
             apply nonempty_false in E; rewrite ?E
           end;
    done.
Qed.

Lemma protocol_of_socket (w : World) (sock : Socket) :
  socket (req w) = Some sock →
  encrypted sock = true ∨ proxy (app w) = false →
  Request.protocol w = (Ok (if encrypted sock then "https" else "http"), w).
Proof.
  intros Hs Hc. rewrite (protocol_eq w sock Hs).
  destruct (encrypted sock); [done|].
  by destruct Hc as [Hc | ->].
Qed.

(** X4: on an encrypted socket, or when the application does not trust
    a proxy, [protocol] is decided by the socket alone, [https] or [http],
    whatever the request headers say; [secure] is then whether the socket
    is encrypted. *)
Theorem protocol_decided_by_socket (w : World) (sock : Socket) :
  socket (req w) = Some sock →
  encrypted sock = true ∨ proxy (app w) = false →
  Request.protocol w = (Ok (if encrypted sock then "https" else "http"), w)
  ∧ Request.secure w = (Ok (encrypted sock), w).
Proof.
  intros Hs Hc. pose proof (protocol_of_socket w sock Hs Hc) as E.
  split; [done|]. unfold Request.secure. rewrite bind_eq, E.
  by destruct (encrypted sock).
Qed.

Lemma nonempty_list a sp r : nonempty (a +:+ sp +:+ String "," r) = true.
Proof. by destruct a, sp. Qed.

Lemma nonempty_true s : s ≠ "" → nonempty s = true.
Proof. intros Hs. by apply Bool.negb_true_iff, String.eqb_neq. Qed.

(** X5: behind a trusted proxy and on a socket that is not encrypted,
    [protocol] is the first element of the X-Forwarded-Proto list, without
    the white space before the comma, and [http] when the header is
    missing or empty. *)
Theorem protocol_behind_proxy (w : World) (sock : Socket) :
  socket (req w) = Some sock →
  encrypted sock = false →
  proxy (app w) = true →
  (incoming "x-forwarded-proto" w = "" →
   Request.protocol w = (Ok "http", w))
  ∧ (∀ a sp r,
       incoming "x-forwarded-proto" w = a +:+ sp +:+ String "," r →
       plain a = true → blank sp = true →
       Request.protocol w = (Ok a, w))
  ∧ (∀ a, incoming "x-forwarded-proto" w = a → a ≠ "" → plain a = true →
       Request.protocol w = (Ok a, w)).
Proof.
  intros Hs He Hp. rewrite (protocol_eq w sock Hs), He, Hp. cbn [negb].
  split; [by intros ->|]. split.
  - intros a sp r -> Ha Hsp.
    by rewrite nonempty_list, split_comma_first_list.
  - intros a -> Ha Hpl.
    by rewrite nonempty_true, split_comma_first_plain.
Qed.

(** X6: when the application does not trust a proxy and the request is
    HTTP/1.x, [host] is read from the Host header alone, X-Forwarded-Host
    and [:authority] being ignored; of a comma-separated list it is the
    first element, without the white space before the comma. *)
Theorem host_from_Host_header (w : World) :
  proxy (app w) = false →
  httpVersionMajor (req w) < 2 →
  Request.host w = (Ok (Js.split_comma_first (incoming "host" w)), w)
  ∧ (∀ a sp r,
       incoming "host" w = a +:+ sp +:+ String "," r →
       plain a = true → blank sp = true →
       Request.host w = (Ok a, w)).
Proof.
  intros Hp Hm.
  assert (Request.host w
          = (Ok (Js.split_comma_first (incoming "host" w)), w)) as E.
  { rewrite host_eq, Hp. cbv zeta.
    assert ((2 <=? httpVersionMajor (req w)) = false) as -> by lia.
    done. }
  split; [done|]. intros a sp r Hh Ha Hsp.
  by rewrite E, Hh, split_comma_first_list.
Qed.

(** X7: the order in which [host] consults the headers: X-Forwarded-Host
    when the proxy is trusted and the header is not empty; otherwise
    [:authority] on HTTP/2 and later, when not empty; otherwise Host; and
    the empty string when the request carries none of them. *)
Theorem host_precedence (w : World) :
  (proxy (app w) = true →
   nonempty (incoming "x-forwarded-host" w) = true →
   Request.host w
   = (Ok (Js.split_comma_first (incoming "x-forwarded-host" w)), w))
  ∧ (proxy (app w) = false ∨ incoming "x-forwarded-host" w = "" →
     2 ≤ httpVersionMajor (req w) →
     nonempty (incoming ":authority" w) = true →
     Request.host w
     = (Ok (Js.split_comma_first (incoming ":authority" w)), w))
  ∧ (proxy (app w) = false ∨ incoming "x-forwarded-host" w = "" →
     httpVersionMajor (req w) < 2 ∨ incoming ":authority" w = "" →
     Request.host w = (Ok (Js.split_comma_first (incoming "host" w)), w))
  ∧ (headers (req w) = ∅ → Request.host w = (Ok "", w)).
Proof.
  rewrite host_eq. cbv zeta. repeat split.
  - by intros -> ->.
  - intros Hf Hm Ha.
    assert ((2 <=? httpVersionMajor (req w)) = true) as -> by lia.
    rewrite Ha. by destruct Hf as [-> | ->]; [|destruct (proxy (app w))].
  - intros Hf Hm.
    assert ((if proxy (app w) then incoming "x-forwarded-host" w else "")
            = "") as ->.
    { by destruct Hf as [-> | ->]; [|destruct (proxy (app w))]. }
    assert ((if 2 <=? httpVersionMajor (req w)
             then incoming ":authority" w else "") = "") as ->; [|done].
    destruct Hm as [Hm | ->]; [|by destruct (_ <=? _)].
    by assert ((2 <=? httpVersionMajor (req w)) = false) as -> by lia.
  - intros Hh. unfold incoming. rewrite Hh, !lookup_empty. cbn.
    by destruct (proxy (app w)), (2 <=? httpVersionMajor (req w)).
Qed.

(** X8: when the request target is an absolute [http://] or [https://]
    URL, in any letter case of the scheme, [href] is that target as it
    stands, and neither the socket nor the headers are consulted.  For
    any other target, on a request that has a socket, [href] is what
    [protocol] answers, [://], what [host] answers, and the target,
    whatever the proxy setting and the forwarded headers are; and it
    throws when the request has no socket. *)
Theorem href_of_target (w : World) :
  (Js.test_http_scheme (originalUrl (request w)) = true →
   Request.href w = (Ok (originalUrl (request w)), w))
  ∧ (Js.test_http_scheme (originalUrl (request w)) = false →
     ∀ sock, socket (req w) = Some sock →
       ∃ p h, Request.protocol w = (Ok p, w)
              ∧ Request.host w = (Ok h, w)
              ∧ Request.href w
                = (Ok ((p +:+ "://" +:+ h) +:+ originalUrl (request w)), w))
  ∧ (Js.test_http_scheme (originalUrl (request w)) = false →
     socket (req w) = None →
     ∃ e, Request.href w = (Throw e, w)).
Proof.
  split; [|split].
  - intros Ht. unfold Request.href. run. done.
  - intros Ht sock Hs. destruct (host_cases w) as [h Eh].
    pose proof (protocol_eq w sock Hs) as Ep. cbv zeta in Ep.
    eexists _, h. split; [exact Ep|]. split; [done|].
    unfold Request.href. run.
    unfold Request.origin. rewrite !bind_eq, Ep.
    cbn [bind_result]. rewrite bind_eq, Eh. by run.
  - intros Ht Hs. unfold Request.href. run.
    unfold Request.origin, Request.protocol, Request.socket_. run.
    eauto.
Qed.

Lemma URL_eq w :
  Request.URL w
  = match memoizedURL (request w) with
    | Some a0 => (Ok (Some a0), w)
    | None =>
      (Ok (Some (length (heap w))),
       with_request (set_memoizedURL (Some (length (heap w))))
         (with_heap (λ h, (h ++ [constructed w])%list) w))
    end.
Proof.
  destruct (memoizedURL (request w)) as [a0|] eqn:Hm.
  - unfold Request.URL. run. done.
  - unfold Request.URL. run.
    pose proof (or_else_same (originalUrl (request w))) as Hou.
    unfold or_else in Hou. rewrite Hou.
    unfold try_catch, constructed, Request.alloc. rewrite !bind_eq.
    destruct (origin_cases w) as [[o ->]|[e ->]]; cbn [bind_result fst].
    + destruct (URL_new (o +:+ originalUrl (request w))) as [u|]; by run.
    + by run.
Qed.

(** X9: for a host that is not an IPv6 literal, [hostname] is the host up
    to its first colon, that is, without the port; it contains no colon
    and reading it changes nothing. *)
Theorem hostname_strips_port (w : World) (h : string) :
  fst (Request.host w) = Ok h →
  Js.starts_with "[" h = false →
  Request.hostname w = (Ok (Js.split_first ":" h), w)
  ∧ occurs ":" (Js.split_first ":" h) = false
  ∧ (∀ name port, h = name +:+ String ":" port → occurs ":" name = false →
       Request.hostname w = (Ok name, w)).
Proof.
  intros Hh Hb. destruct (host_cases w) as [h' E].
  rewrite E in Hh. injection Hh as ->.
  assert (Request.hostname w = (Ok (Js.split_first ":" h), w)) as Eh.
  { unfold Request.hostname. rewrite bind_eq, E. cbn [bind_result].
    destruct (nonempty h) eqn:Hn; cbn [negb].
    - by rewrite Hb.
    - by apply nonempty_false in Hn as ->. }
  split; [done|]. split; [apply occurs_split_first|].
  intros name port -> Hn. by rewrite Eh, split_first_before.
Qed.

(** X10: for a host that is an IPv6 literal, [hostname] is read from the
    memoized [URL] object, which this read creates when there is none: the
    parsed host name, and the empty string when the URL could not be
    parsed.  It does not throw. *)
Theorem hostname_of_IPv6_literal (w : World) (h : string) :
  fst (Request.host w) = Ok h →
  Js.starts_with "[" h = true →
  let w' := snd (Request.URL w) in
  ∃ a, memoizedURL (request w') = Some a
       ∧ Request.hostname w
         = (Ok (match heap w' !! a with
                | Some (ParsedURL u) => hostname u
                | _ => ""
                end), w').
Proof.
  intros Hh Hb w'. subst w'. destruct (host_cases w) as [h' E].
  rewrite E in Hh. injection Hh as ->.
  assert (nonempty h = true) as Hn by (by destruct h).
  unfold Request.hostname. rewrite bind_eq, E. cbn [bind_result].
  rewrite Hn, Hb. cbn [negb]. rewrite bind_eq, URL_eq.
  destruct (memoizedURL (request w)) as [a0|] eqn:Hm; cbn [bind_result snd].
  - exists a0. split; [done|]. run.
    destruct (heap w !! a0) as [[u|]|]; try done.
    pose proof (or_else_same (hostname u)) as Hu.
    unfold or_else in Hu. by rewrite Hu.
  - eexists. split; [reflexivity|]. run.
    match goal with
    | |- context [?l !! ?i] => destruct (l !! i) as [[u|]|]
    end; try done.
    pose proof (or_else_same (hostname u)) as Hu.
    unfold or_else in Hu. by rewrite Hu.
Qed.

(** X11: the [type] of the request is the Content-Type header up to its
    first semicolon: it never contains one, and reading it changes
    nothing. *)
Theorem request_type_has_no_parameters (w : World) :
  Request.type w
  = (Ok (Js.split_first ";" (incoming "content-type" w)), w)
  ∧ occurs ";" (Js.split_first ";" (incoming "content-type" w)) = false.
Proof.
  split; [|apply occurs_split_first].
  unfold Request.type. rewrite bind_eq, request_get_incoming by done.
  run. destruct (nonempty (incoming "content-type" w)) eqn:Hn; cbn; [done|].
  by apply nonempty_false in Hn as ->.
Qed.

(** X12: the negotiator is built on the first call of [accepts] and kept:
    a later call finds it, answers from the same request and changes
    nothing; a negotiator installed through the [accept] setter replaces
    it and answers instead. *)
Theorem accepts_negotiator_is_kept (w : World) (args args' : list string) :
  _accept (request w) = None →
  let w1 := snd (Request.accepts args w) in
  fst (Request.accepts args w) = Ok (accepts_types (req w) args)
  ∧ _accept (request w1) = Some AcceptsReq
  ∧ Request.accepts args' w1 = (Ok (accepts_types (req w) args'), w1)
  ∧ (∀ types,
       let w2 := snd (Request.set_accept (AcceptsCustom types) w1) in
       Request.accepts args' w2 = (Ok (types args'), w2)).
Proof.
  intros Ha w1. subst w1. unfold Request.accepts, Request.accept.
  run. done.
Qed.

End RequestProperties.

(** ** The response facade: the header table *)

Section HeaderProperties.
Context `{Imports}.



(** The decimal text of an integer is read back by [parseInt]. *)
Lemma parseInt_String_integer (z : Z) :
  Js.parseInt (String_number (of_Z z)) = Some z.
Proof.
  rewrite String_number_of_Z.
  destruct z as [|p|p]; [reflexivity| |].
  - unfold Z.to_int, NilZero.string_of_int.
    pose proof (to_uint_not_Nil p) as Hn.
    assert (NilZero.string_of_uint (Pos.to_uint p)
            = NilEmpty.string_of_uint (Pos.to_uint p)) as ->.
    { by destruct (Pos.to_uint p). }
    rewrite parseInt_digits by done. f_equal.
    change (Z.of_uint (Pos.to_uint p)) with (Z.of_int (Z.to_int (Z.pos p))).
    apply DecimalZ.of_to.
  - unfold Z.to_int, NilZero.string_of_int.
    pose proof (to_uint_not_Nil p) as Hn.
    assert (NilZero.string_of_uint (Pos.to_uint p)
            = NilEmpty.string_of_uint (Pos.to_uint p)) as ->.
    { by destruct (Pos.to_uint p). }
    unfold Js.parseInt. rewrite skip_space_plain by done.
    unfold Js.parse_unsigned. rewrite digits_prefix_string.
    destruct (Pos.to_uint p) eqn:E; try done; rewrite <- E; cbn;
      f_equal;
      change (Z.of_uint (Pos.to_uint p)) with (Z.of_int (Z.to_int (Z.pos p)));
      by rewrite DecimalZ.of_to.
Qed.

(** X15: on unsent headers and without a Transfer-Encoding header, an
    integer assigned to [length] is written to Content-Length in decimal
    and read back by [length] as the same integer.  The integers are the
    safe ones, which [String] prints digit by digit. *)
Theorem length_round_trip (z : Z) (w : World) :
  - 2 ^ 53 < z < 2 ^ 53 →
  headersSent (res w) = false →
  fst (Responce.has "Transfer-Encoding" w) = Ok false →
  let w' := snd (Responce.set_length (of_Z z) w) in
  fst (Responce.set_length (of_Z z) w) = Ok tt
  ∧ fst (Responce.get "Content-Length" w')
    = Ok (Some (HStr (String_number (of_Z z))))
  ∧ fst (Responce.length w') = Ok (Some (of_Z z)).
Proof.
  intros _ Hs Hte w'. subst w'.
  rewrite has_eq, Names.transfer_encoding in Hte. injection Hte as Hte.
  rewrite set_length_eq, Hte, Hs. cbn [fst snd].
  unfold Responce.length. run. by rewrite parseInt_String_integer.
Qed.

(** X16: on unsent headers, assigning [type] writes what the MIME
    package answers for the name, when that is a value free of control
    characters, and the [type] getter then reads it back without its
    parameters; a name the package does not know removes the Content-Type
    header instead. *)
Theorem type_round_trip (name : string) (w : World) :
  headersSent (res w) = false →
  coherent (typeLRUCache w) →
  let w' := snd (Responce.set_type name w) in
  (∀ m, mime_contentType name = Some m → nonempty m = true →
     field_text m = true →
     fst (Responce.set_type name w) = Ok tt
     ∧ fst (Responce.get "Content-Type" w') = Ok (Some (HStr m))
     ∧ fst (Responce.type w') = Ok (Js.split_first ";" m)
     ∧ occurs ";" (Js.split_first ";" m) = false)
  ∧ (mime_contentType name = None →
     fst (Responce.set_type name w) = Ok tt
     ∧ fst (Responce.has "Content-Type" w') = Ok false
     ∧ fst (Responce.type w') = Ok "").
Proof.
  intros Hs Hc w'. subst w'. rewrite set_type_eq, Hs. cbv zeta.
  destruct (cache_lookup_coherent name _ Hc) as [-> _].
  split.
  - intros m -> Hm _. cbn [truthy_str]. rewrite Hm. cbn [fst snd default].
    run. rewrite Hm. by rewrite occurs_split_first.
  - intros ->. cbn [truthy_str fst snd]. by run.
Qed.

(** X17: when the Content-Type header holds a list of values, the [type]
    getter throws a TypeError; so does [body = null] on a status that
    allows a body, after it has already stored the null body, and it then
    changes neither the status nor the headers. *)
Theorem null_body_throws_on_listed_type (l : list string) (w : World) :
  fst (Responce.get "Content-Type" w) = Ok (Some (HArr l)) →
  statuses_empty (statusCode (res w)) = false →
  ∃ msg,
    Responce.type w = (Throw (TypeError msg), w)
    ∧ Responce.set_body VNull w
      = (Throw (TypeError msg), with_response (set__body VNull) w).
Proof.
  rewrite get_eq, Names.content_type. intros [= Ht] He.
  eexists. split.
  - rewrite type_eq. unfold type_of. by rewrite Ht.
  - rewrite set_body_eq. unfold Responce.body_value. run.
    unfold type_of. by rewrite Ht.
Qed.

End HeaderProperties.

(** ** The response facade: status, message and body *)

Section BodyProperties.
Context `{Imports}.

Lemma defaulted_status w :
  headersSent (res w) = false →
  statusCode (res (defaulted w))
  = if _explicitStatus (response w) then statusCode (res w) else 200.
Proof.
  intros Hs. unfold defaulted. rewrite Hs, Bool.orb_false_r.
  by destruct (_explicitStatus (response w)).
Qed.

Lemma defaulted_explicit_after w :
  headersSent (res w) = false →
  _explicitStatus (response (defaulted w)) = true.
Proof.
  intros Hs. unfold defaulted. rewrite Hs, Bool.orb_false_r.
  by destruct (_explicitStatus (response w)) eqn:E.
Qed.

Lemma defaulted_listeners w :
  finishListeners (res (defaulted w)) = finishListeners (res w)
  ∧ errorHandlers (defaulted w) = errorHandlers w.
Proof. unfold defaulted. by destruct (_ || _). Qed.

Lemma json_body_eq (w : World) :
  headersSent (res w) = false →
  let v := fst (cache_lookup "json" (typeLRUCache w)) in
  let w1 := with_cache (λ _, snd (cache_lookup "json" (typeLRUCache w)))
              (without_header "content-length" w) in
  Responce.json_body w
  = (Ok tt, if truthy_str v
            then with_header "content-type" (HStr (default "" v)) w1
            else without_header "content-type" w1).
Proof.
  intros Hs. unfold Responce.json_body. run. by destruct (truthy_str _).
Qed.

(** The structured-body path of the body setter, on unsent headers. *)
Lemma set_body_json_eq (val : Value) (w : World) :
  headersSent (res w) = false →
  statuses_empty 200 = false →
  nullish val = false → sets_fallback val = false →
  let w0 := defaulted (with_response (set__body val) w) in
  let v := fst (cache_lookup "json" (typeLRUCache w)) in
  let w1 := with_cache (λ _, snd (cache_lookup "json" (typeLRUCache w)))
              (without_header "content-length" w0) in
  Responce.set_body val w
  = (Ok tt, if truthy_str v
            then with_header "content-type" (HStr (default "" v)) w1
            else without_header "content-type" w1).
Proof.
  intros Hs H200 Hn Hk. rewrite set_body_eq.
  unfold Responce.body_value. run. rewrite Hn. run.
  assert (headersSent (res (defaulted (with_response (set__body val) w)))
          = false) as Hs'.
  { by rewrite defaulted_sent. }
  destruct val; try discriminate; rewrite json_body_eq by done; cbv zeta;
    by rewrite defaulted_cache.
Qed.

(** What the body setter does to the status and to its own fields, for
    any body that is not null, on unsent headers. *)
Lemma set_body_status (val : Value) (w : World) r w' :
  headersSent (res w) = false →
  statuses_empty 200 = false →
  nullish val = false →
  Responce.set_body val w = (r, w') →
  r = Ok tt
  ∧ statusCode (res w')
    = (if _explicitStatus (response w) then statusCode (res w) else 200)
  ∧ _explicitStatus (response w') = true
  ∧ _body (response w') = val
  ∧ headersSent (res w') = false.
Proof.
  intros Hs H200 Hn.
  destruct (sets_fallback val) eqn:Hk.
  - rewrite set_body_eq. unfold Responce.body_value. run. rewrite Hn. run.
    pose proof (defaulted_status (with_response (set__body val) w) Hs) as Hd.
    pose proof (defaulted_explicit_after (with_response (set__body val) w) Hs)
      as Hx.
    cbn in Hd. revert Hd Hx.
    generalize (defaulted_body (with_response (set__body val) w)).
    generalize (defaulted_sent (with_response (set__body val) w)).
    cbn [with_response response res _body set__body].
    generalize (defaulted (with_response (set__body val) w)). intros w0.
    rewrite Hs. intros Hs0 Hb0 Hd Hx E.
    destruct val; try discriminate.
    + apply string_body_spec in E as (-> & _ & Hs' & Hc & Hr & _).
      by rewrite Hs', Hc, Hr.
    + apply buffer_body_spec in E as (-> & _ & Hs' & Hc & Hr & _).
      by rewrite Hs', Hc, Hr.
    + apply stream_body_spec in E as (-> & _ & Hs' & Hc & Hr & _).
      by rewrite Hs', Hc, Hr.
  - rewrite set_body_json_eq by done. cbv zeta. intros [= <- <-].
    pose proof (defaulted_status (with_response (set__body val) w) Hs) as Hd.
    pose proof (defaulted_explicit_after (with_response (set__body val) w) Hs)
      as Hx.
    pose proof (defaulted_body (with_response (set__body val) w)) as Hb.
    pose proof (defaulted_sent (with_response (set__body val) w)) as Hs'.
    cbn in Hd, Hb, Hs'. rewrite Hs in Hs'.
    by destruct (truthy_str _).
Qed.


(** X19: a status assigned through the setter is kept by a later
    assignment of a body that is not null, whatever the kind of body; a
    response whose status was never assigned gets 200. *)
Theorem explicit_status_survives_body (c : Z) (val : Value) (w : World) :
  headersSent (res w) = false →
  statuses_empty 200 = false →
  100 ≤ c ≤ 999 →
  nullish val = false →
  let w1 := snd (Responce.set_status (of_Z c) w) in
  let w2 := snd (Responce.set_body val w1) in
  fst (Responce.set_status (of_Z c) w) = Ok tt
  ∧ fst (Responce.set_body val w1) = Ok tt
  ∧ fst (Responce.status w2) = Ok c
  ∧ fst (Responce.body w2) = Ok val
  ∧ (_explicitStatus (response w) = false →
     fst (Responce.set_body val w) = Ok tt
     ∧ fst (Responce.status (snd (Responce.set_body val w))) = Ok 200).
Proof.
  intros Hs H200 Hc Hn w1 w2. subst w2 w1.
  assert (∃ w1, Responce.set_status (of_Z c) w = (Ok tt, w1)
                ∧ headersSent (res w1) = false
                ∧ _explicitStatus (response w1) = true
                ∧ statusCode (res w1) = c) as (w1 & E1 & Hs1 & Hx1 & Hc1).
  { rewrite set_status_eq. unfold status_result. run.
    assert ((100 <=? c) && (c <=? 999) = true) as -> by lia. cbn [negb].
    destruct (truthy _ && _); eexists; (split; [reflexivity|]); by run. }
  rewrite E1. cbn [fst snd].
  destruct (Responce.set_body val w1) as [r w2] eqn:E2.
  apply set_body_status in E2 as (-> & Hc2 & _ & Hb2 & _); try done.
  rewrite Hx1, Hc1 in Hc2. cbn [fst snd]. run.
  do 4 (split; [done|]). intros Hx.
  destruct (Responce.set_body val w) as [r w3] eqn:E3.
  apply set_body_status in E3 as (-> & Hc3 & _); try done.
  rewrite Hx in Hc3. cbn [fst snd]. by run.
Qed.

Lemma stream_body_listeners (setType : bool) (original : Value) (id : nat)
    (w : World) r w' :
  Responce.stream_body setType original id w = (r, w') →
  finishListeners (res w') = (finishListeners (res w) ++ [id])%list
  ∧ errorHandlers w'
    = (if differs_from_stream original id
       then errorHandlers w ++ [id] else errorHandlers w)%list.
Proof.
  unfold Responce.stream_body. destruct setType; paths; done.
Qed.

(** X20: assigning a stream as body, on unsent headers, registers a
    finish listener for it on every assignment, but an error handler only
    when the stream is not already the body; and it removes Content-Length
    only when the stream replaces another body that is not null. *)
Theorem stream_body_registrations (id : nat) (w : World) :
  headersSent (res w) = false →
  statuses_empty 200 = false →
  let w' := snd (Responce.set_body (VStream id) w) in
  let replaces := differs_from_stream (_body (response w)) id in
  fst (Responce.set_body (VStream id) w) = Ok tt
  ∧ finishListeners (res w') = (finishListeners (res w) ++ [id])%list
  ∧ errorHandlers w'
    = (if replaces then errorHandlers w ++ [id] else errorHandlers w)%list
  ∧ fst (Responce.get "Content-Length" w')
    = (if replaces && negb (nullish (_body (response w)))
       then Ok None else fst (Responce.get "Content-Length" w)).
Proof.
  intros Hs H200 w' replaces. subst w' replaces.
  destruct (Responce.set_body (VStream id) w) as [r w'] eqn:E.
  pose proof E as E'.
  apply set_body_fallback_spec in E' as (-> & Hh & _); [|done..].
  revert E. rewrite set_body_eq. unfold Responce.body_value. run.
  intros E. apply stream_body_listeners in E as [Hf He].
  destruct (defaulted_listeners (with_response (set__body (VStream id)) w))
    as [Hf0 He0].
  rewrite Hf0 in Hf. rewrite He0 in He. cbn in Hf, He.
  do 3 (split; [done|]).
  rewrite fallback_headers_other by done. unfold overwrite_headers.
  destruct (differs_from_stream _ _), (nullish _); cbn; try done.
  by rewrite lookup_delete_eq.
Qed.

(** X21: on unsent headers and a status of the no-body family, assigning
    null or undefined as body keeps the status (it is not made 204) and
    removes Content-Type, Content-Length and Transfer-Encoding, whatever
    the content type was; only null is recorded as an explicit null
    body. *)
Theorem no_body_on_empty_status (val : Value) (w : World) :
  headersSent (res w) = false →
  statuses_empty (statusCode (res w)) = true →
  nullish val = true →
  let w' := snd (Responce.set_body val w) in
  fst (Responce.set_body val w) = Ok tt
  ∧ fst (Responce.status w') = fst (Responce.status w)
  ∧ fst (Responce.body w') = Ok val
  ∧ fst (Responce.has "Content-Type" w') = Ok false
  ∧ fst (Responce.has "Content-Length" w') = Ok false
  ∧ fst (Responce.has "Transfer-Encoding" w') = Ok false
  ∧ _explicitNullBody (response w')
    = (is_null val || _explicitNullBody (response w)).
Proof.
  intros Hs He Hn w'. subst w'. rewrite set_body_eq.
  unfold Responce.body_value. run. rewrite Hn. run.
  destruct val; try discriminate; run; done.
Qed.

(** X22: a valid status assigned on unsent headers also sets the status
    message to the standard phrase of the code when the request is
    HTTP/1.x, replacing any custom message; on HTTP/2 and later the stored
    message is left alone. *)
Theorem status_sets_message (c : Z) (w : World) :
  headersSent (res w) = false →
  100 ≤ c ≤ 999 →
  let w' := snd (Responce.set_status (of_Z c) w) in
  fst (Responce.set_status (of_Z c) w) = Ok tt
  ∧ (httpVersionMajor (req w) < 2 →
     statusMessage (res w') = statuses c
     ∧ fst (Responce.message w') = Ok (statuses c))
  ∧ (2 ≤ httpVersionMajor (req w) →
     statusMessage (res w') = statusMessage (res w)).
Proof.
  intros Hs Hc w'. subst w'. rewrite set_status_eq. unfold status_result.
  run. assert ((100 <=? c) && (c <=? 999) = true) as -> by lia. cbn [negb].
  unfold Responce.message.
  assert (httpVersionMajor (req w) < 2 → message_for c w = statuses c) as H1.
  { intros Hm. unfold message_for.
    by assert ((httpVersionMajor (req w) <? 2) = true) as -> by lia. }
  assert (2 ≤ httpVersionMajor (req w) →
          message_for c w = statusMessage (res w)) as H2.
  { intros Hm. unfold message_for.
    by assert ((httpVersionMajor (req w) <? 2) = false) as -> by lia. }
  destruct (truthy _ && _); run; (split; [done|]); (split; [|done]);
    intros Hm; rewrite H1 by done; (split; [done|]);
    by destruct (truthy_str (statuses c)).
Qed.

(** X23: the [message] setter is not stopped by sent headers: it stores
    the message in any case, touching nothing else; [message] then reads
    it back when it is not empty, and falls back to the standard phrase of
    the current status when it is. *)
Theorem message_set_regardless (msg : string) (w : World) :
  let w' := snd (Responce.set_message msg w) in
  fst (Responce.set_message msg w) = Ok tt
  ∧ fst (Responce.message w')
    = Ok (if nonempty msg then Some msg else statuses (statusCode (res w)))
  ∧ statusCode (res w') = statusCode (res w)
  ∧ outHeaders (res w') = outHeaders (res w)
  ∧ headersSent (res w') = headersSent (res w)
  ∧ response w' = response w.
Proof.
  intros w'. subst w'. unfold Responce.set_message, Responce.message. run.
  by destruct (nonempty msg).
Qed.

(** X24: a valid status assigned on unsent headers leaves every header
    and the body as they were, unless the body is truthy and the status
    belongs to the no-body family. *)
Theorem status_keeps_headers (c : Z) (w : World) :
  headersSent (res w) = false →
  100 ≤ c ≤ 999 →
  truthy (_body (response w)) = false ∨ statuses_empty c = false →
  let w' := snd (Responce.set_status (of_Z c) w) in
  fst (Responce.set_status (of_Z c) w) = Ok tt
  ∧ fst (Responce.status w') = Ok c
  ∧ outHeaders (res w') = outHeaders (res w)
  ∧ _body (response w') = _body (response w)
  ∧ _explicitStatus (response w') = true.
Proof.
  intros Hs Hc Hb w'. subst w'. rewrite set_status_eq. unfold status_result.
  run. assert ((100 <=? c) && (c <=? 999) = true) as -> by lia. cbn [negb].
  assert (truthy (_body (response w)) && statuses_empty c = false) as ->.
  { destruct Hb as [-> | ->]; [done|apply Bool.andb_false_r]. }
  by run.
Qed.

End BodyProperties.

(** ** The response facade: [append], [etag], the nesting of the setters *)

Section MoreResponseProperties.
Context `{Imports}.

Lemma texts_strings (l : list string) (items : list Value) :
  texts (map VString l ++ items) = (l ++ texts items)%list.
Proof.
  unfold texts. rewrite map_app, map_map. f_equal.
  induction l as [|s l IH]; [done|]. cbn. by rewrite IH.
Qed.

Lemma coerce_concat (l : list string) (val : Value) :
  Responce.coerce (Responce.concat l val) = HArr (l ++ texts (spread val)).
Proof.
  unfold Responce.concat, Responce.coerce. fold (spread val).
  f_equal. apply texts_strings.
Qed.

(** X25: on unsent headers, for a field name that is an HTTP token and
    values free of control characters, [append] adds to what the header
    holds: a header that is missing or empty is set to the value; a
    string becomes the list of that string and the added values; a list
    gets the added values at its end.  An array argument adds each of its
    elements.  Once the headers are sent, [append] changes nothing. *)
Theorem append_accumulates (field : string) (val : Value) (w : World) :
  (headersSent (res w) = true → Responce.append field val w = (Ok tt, w))
  ∧ (headersSent (res w) = false →
     http_token field = true →
     forallb field_text (texts (spread val)) = true →
     (∀ v, outHeaders (res w) !! Js.toLowerCase field = Some v →
           field_value v = true) →
     let w' := snd (Responce.append field val w) in
     fst (Responce.append field val w) = Ok tt
     ∧ fst (Responce.get field w')
       = Ok (Some
               match outHeaders (res w) !! Js.toLowerCase field with
               | None => Responce.coerce val
               | Some (HStr s) =>
                 if nonempty s then HArr (s :: texts (spread val))
                 else Responce.coerce val
               | Some (HArr l) => HArr (l ++ texts (spread val))
               end)).
Proof.
  unfold Responce.append.
  rewrite bind_eq, get_eq. cbn [bind_result]. rewrite set_eq.
  split; [by intros ->|].
  intros Hs _ _ _. rewrite Hs. cbn [fst snd]. split; [done|].
  rewrite get_eq. cbn [fst]. unfold with_header. cbn.
  rewrite lookup_insert_eq. do 2 f_equal.
  destruct (outHeaders (res w) !! Js.toLowerCase field) as [[s|l]|];
    [destruct (nonempty s)|..]; try done; by rewrite coerce_concat.
Qed.

Lemma field_text_app a b :
  field_text a = true → field_text b = true → field_text (a +:+ b) = true.
Proof.
  intros Ha Hb. induction a as [|c a IH];
    rewrite ?append_empty, ?append_String; [done|].
  cbn [field_text] in *. apply Bool.andb_true_iff in Ha as [Hc Ha].
  by rewrite Hc, IH.
Qed.

Lemma field_text_quoted val :
  field_text val = true → field_text (quot +:+ val +:+ quot) = true.
Proof.
  intros Hv. apply field_text_app; [done|]. by apply field_text_app.
Qed.

Lemma etag_quoted_quoted val :
  Js.test_etag_quoted (quot +:+ val +:+ quot) = true.
Proof. reflexivity. Qed.

(** X26: on unsent headers the [etag] setter stores a quoted tag, for a
    value free of control characters: a value that starts with a double
    quote, or with [W/] and a double quote, is stored as it is, any other
    value between double quotes; assigning the stored tag again changes
    nothing. *)
Theorem etag_is_stored_quoted (val : string) (w : World) :
  headersSent (res w) = false →
  field_text val = true →
  let w' := snd (Responce.set_etag val w) in
  let tag := if Js.test_etag_quoted val then val
             else quot +:+ val +:+ quot in
  fst (Responce.set_etag val w) = Ok tt
  ∧ fst (Responce.etag w') = Ok (Some (HStr tag))
  ∧ Js.test_etag_quoted tag = true
  ∧ field_text tag = true
  ∧ Responce.set_etag tag w' = (Ok tt, w').
Proof.
  intros Hs Hv w' tag. subst w'.
  assert (Js.test_etag_quoted tag = true) as Ht.
  { subst tag. destruct (Js.test_etag_quoted val) eqn:E; [done|].
    apply etag_quoted_quoted. }
  assert (Responce.set_etag val w = (Ok tt, with_header "etag" (HStr tag) w))
    as E.
  { unfold Responce.set_etag. rewrite set_eq, Hs, Fields.etag. subst tag.
    by destruct (Js.test_etag_quoted val). }
  rewrite E. cbn [fst snd]. unfold Responce.etag.
  rewrite get_eq, Fields.etag. cbn [fst].
  split; [done|]. split.
  { unfold with_header. cbn. by rewrite lookup_insert_eq. }
  split; [done|]. split.
  { subst tag. destruct (Js.test_etag_quoted val); [done|].
    by apply field_text_quoted. }
  unfold Responce.set_etag. rewrite Ht. cbn [negb].
  rewrite set_eq, Fields.etag. unfold with_header at 1. cbn [res with_res
    headersSent with_outHeaders]. rewrite Hs. f_equal.
  unfold with_header, with_res, with_outHeaders. cbn.
  by rewrite insert_insert_eq.
Qed.

(** X29: the [status] and [body] setters call each other, and the calls
    nest at most three deep: [body = v] may assign [status = 200], which
    may assign [body = null], which assigns no status when it is reached
    that way.  A budget of three nested calls is therefore never
    exhausted, and a larger one gives the same outcome. *)
Theorem setters_nest_three_deep (n : nat) (code : number) (val : Value)
    (w : World) :
  fst (Responce.set_status code w) ≠ OutOfFuel
  ∧ fst (Responce.set_body val w) ≠ OutOfFuel
  ∧ Responce.status_setter (Responce.budget + n) code w
    = Responce.set_status code w
  ∧ Responce.body_setter (Responce.budget + n) val w
    = Responce.set_body val w.
Proof.
  split; [apply set_status_terminates|].
  split; [apply set_body_terminates|].
  split; [|apply body_setter_fuel].
  change (Responce.budget + n)%nat with (2 + S n)%nat.
  apply status_setter_fuel.
Qed.

End MoreResponseProperties.

(** ** The theorems on concrete cycles

    Each statement below instantiates a theorem above, with the sample
    packages, on a store built by running the methods themselves; the
    counterexamples evaluate the methods where a claim, as first stated,
    fails. *)

#[local] Existing Instance Sample.imports.



(** C2 on [ctx.status = 200; ctx.type = "json"; ctx.body = null]. *)
Lemma C2_witness :
  let w := Sample.json_response in
  (statuses_empty (statusCode (res w)) = false
   ∧ fst (Responce.type w) = Ok "application/json")
  ∧ fst (Responce.set_body VNull w) = Ok tt
  ∧ fst (Responce.body (snd (Responce.set_body VNull w)))
    = Ok (VString "null")
  ∧ String.length "null" = 4%nat
  ∧ fst (Responce.status (snd (Responce.set_body VNull w)))
    = fst (Responce.status w)
  ∧ res (snd (Responce.set_body VNull w)) = res w.
Proof.
  split; [by vm_compute|].
  apply (C2_null_body_json Sample.json_response); reflexivity.
Defined.

(** C3 (amended) on [ctx.body = "hello"; ctx.status = 204]. *)
Lemma C3_witness :
  let w := Sample.text_response in
  let w' := snd (Responce.set_status (of_Z 204) w) in
  (headersSent (res w) = false
   ∧ truthy (_body (response w)) = true
   ∧ statuses_empty 204 = true)
  ∧ fst (Responce.set_status (of_Z 204) w) = Ok tt
  ∧ fst (Responce.status w') = Ok 204
  ∧ fst (Responce.body w') = Ok VNull
  ∧ fst (Responce.has "Content-Type" w') = Ok false
  ∧ fst (Responce.has "Content-Length" w') = Ok false
  ∧ fst (Responce.has "Transfer-Encoding" w') = Ok false.
Proof.
  split; [by vm_compute|].
  apply (C3_empty_status_clears_truthy_body Sample.text_response 204);
    [reflexivity | reflexivity | lia | reflexivity].
Defined.

(** C3 as first stated fails on [ctx.body = ""; ctx.status = 204]: the
    body is not null, the headers are not sent, 204 is a no-body status,
    and yet the body and its headers stay. *)
Lemma C3_counterexample :
  let w := Sample.empty_text_response in
  let w' := snd (Responce.set_status (of_Z 204) w) in
  headersSent (res w) = false
  ∧ _body (response w) = VString ""
  ∧ nullish (_body (response w)) = false
  ∧ statuses_empty 204 = true
  ∧ fst (Responce.set_status (of_Z 204) w) = Ok tt
  ∧ fst (Responce.status w') = Ok 204
  ∧ fst (Responce.body w') = Ok (VString "")
  ∧ fst (Responce.get "Content-Type" w')
    = Ok (Some (HStr "text/plain; charset=utf-8"))
  ∧ fst (Responce.get "Content-Length" w') = Ok (Some (HStr "0")).
Proof. by vm_compute. Qed.

(** C4 on a flushed cycle. *)
Lemma C4_witness :
  let w := Sample.flushed Sample.fresh in
  headersSent (res w) = true
  ∧ Responce.set "X-Foo" (VString "bar") w = (Ok tt, w)
  ∧ Responce.set_object [("X-Foo", VString "bar")] w = (Ok tt, w)
  ∧ Responce.remove "X-Foo" w = (Ok tt, w)
  ∧ Responce.vary "X-Foo" w = (Ok tt, w)
  ∧ Responce.set_status (of_Z 1000) w = (Ok tt, w).
Proof.
  split; [reflexivity|].
  apply (C4_frozen_after_headers_sent (Sample.flushed Sample.fresh));
    reflexivity.
Defined.

(** C5 (amended) on a fresh cycle. *)
Lemma C5_witness :
  let w := Sample.fresh in
  headersSent (res w) = false
  ∧ (∀ code : number, Number_isInteger code = true →
       100 ≤ to_Z code ≤ 999 →
       fst (Responce.set_status code w) = Ok tt
       ∧ fst (Responce.status (snd (Responce.set_status code w)))
         = Ok (to_Z code))
  ∧ (∀ code : number, Number_isInteger code = false →
       Responce.set_status code w
       = (Throw (AssertionError "status code must be a number"), w))
  ∧ (∀ code : number, Number_isInteger code = true →
       ¬ (100 ≤ to_Z code ≤ 999) →
       Responce.set_status code w
       = (Throw (AssertionError
                   ("invalid status code: " +:+ String_number code)), w)).
Proof.
  split; [reflexivity|].
  apply (C5_status_validated_before_headers_sent Sample.fresh); reflexivity.
Defined.

(** C5 as first stated fails once the headers are sent: 1000 is out of
    range and 5/2 is not an integer, yet neither assignment throws; 200 is
    in range, yet the status stays 404. *)
Lemma C5_counterexample :
  let w := Sample.flushed Sample.fresh in
  Number_isInteger (Finite (5 # 2)) = false
  ∧ Responce.set_status (Finite (5 # 2)) w = (Ok tt, w)
  ∧ Responce.set_status (of_Z 1000) w = (Ok tt, w)
  ∧ Responce.set_status (of_Z 200) w = (Ok tt, w)
  ∧ fst (Responce.status w) = Ok 404.
Proof. by vm_compute. Qed.

(** C6 (amended): [ctx.body = "<p>hi</p>"] keeps the type the caller
    chose, and sets [text/html] on a fresh cycle. *)
Lemma C6_witness :
  (let w := Sample.typed_response in
   let w' := snd (Responce.set_body (VString "<p>hi</p>") w) in
   statuses_empty 200 = false
   ∧ fst (Responce.get "Content-Type" w)
     = Ok (Some (HStr "application/vnd.api+json"))
   ∧ fst (Responce.set_body (VString "<p>hi</p>") w) = Ok tt
   ∧ fst (Responce.get "Content-Type" w')
     = Ok (Some (HStr "application/vnd.api+json")))
  ∧ (let w := Sample.fresh in
     let w' := snd (Responce.set_body (VString "<p>hi</p>") w) in
     fst (Responce.has "Content-Type" w) = Ok false
     ∧ fst (Responce.get "Content-Type" w')
       = Ok (Some (HStr "text/html; charset=utf-8"))).
Proof.
  split.
  - destruct (@C6_explicit_type_kept Sample.imports Sample.typed_response
                (VString "<p>hi</p>") eq_refl eq_refl) as (Hok & Hkept & _).
    split; [reflexivity|]. split; [reflexivity|].
    split; [exact Hok | exact (Hkept _ eq_refl)].
  - destruct (@C6_explicit_type_kept Sample.imports Sample.fresh
                (VString "<p>hi</p>") eq_refl eq_refl) as (_ & _ & Hset).
    split; [reflexivity|].
    exact (Hset "text/html; charset=utf-8" eq_refl eq_refl coherent_new
             eq_refl eq_refl).
Defined.

(** C6 as first stated fails for a null body and for a structured body:
    [ctx.body = null] removes the Content-Type of a text response, and an
    object body replaces the type the caller chose by the JSON type. *)
Lemma C6_counterexample :
  (let w := Sample.text_response in
   fst (Responce.get "Content-Type" w)
   = Ok (Some (HStr "text/plain; charset=utf-8"))
   ∧ fst (Responce.get "Content-Type" (snd (Responce.set_body VNull w)))
     = Ok None)
  ∧ (let w := Sample.typed_response in
     fst (Responce.get "Content-Type" w)
     = Ok (Some (HStr "application/vnd.api+json"))
     ∧ fst (Responce.get "Content-Type"
              (snd (Responce.set_body (VObject 0) w)))
       = Ok (Some (HStr "application/json; charset=utf-8"))).
Proof. by vm_compute. Qed.

(** C7 (amended) on [ctx.body = "  <p>hi</p>"], fresh cycle. *)
Lemma C7_witness :
  let w := Sample.fresh in
  let s := "  <p>hi</p>" in
  let w' := snd (Responce.set_body (VString s) w) in
  (headersSent (res w) = false
   ∧ fst (Responce.has "Content-Type" w) = Ok false
   ∧ fst (Responce.has "Transfer-Encoding" w) = Ok false
   ∧ statuses_empty 200 = false
   ∧ mime_contentType "text" = Some "text/plain; charset=utf-8"
   ∧ mime_contentType "html" = Some "text/html; charset=utf-8")
  ∧ fst (Responce.set_body (VString s) w) = Ok tt
  ∧ fst (Responce.type w')
    = Ok (if Js.test_leading_lt s then "text/html" else "text/plain")
  ∧ fst (Responce.length w') = Ok (Some (of_nat (String.length s))).
Proof.
  split; [by vm_compute|].
  apply (C7_string_body_type_and_length Sample.fresh "  <p>hi</p>");
    try reflexivity.
  apply coherent_new.
Defined.

(** C7 as first stated fails in two ways.  Once the headers are sent a
    string body sets no type at all; and while Transfer-Encoding is set a
    Content-Length left from before is what [length] reports: 5 for the
    11 bytes of "hello world". *)
Lemma C7_counterexample :
  (let w := Sample.flushed Sample.fresh in
   let w' := snd (Responce.set_body (VString "hi") w) in
   fst (Responce.has "Content-Type" w) = Ok false
   ∧ Js.test_leading_lt "hi" = false
   ∧ fst (Responce.set_body (VString "hi") w) = Ok tt
   ∧ fst (Responce.type w') = Ok "")
  ∧ (let w := Sample.stale_length_response in
     let w' := snd (Responce.set_body (VString "hello world") w) in
     headersSent (res w) = false
     ∧ fst (Responce.has "Content-Type" w) = Ok false
     ∧ fst (Responce.set_body (VString "hello world") w) = Ok tt
     ∧ String.length "hello world" = 11%nat
     ∧ fst (Responce.length w') = Ok (Some (of_Z 5))).
Proof. by vm_compute. Qed.

(** C10 on [ctx.set("Transfer-Encoding", "chunked"); ctx.body = "hi"]. *)
Lemma C10_witness :
  let w := Sample.chunked_response in
  let w' := snd (Responce.set_body (VString "hi") w) in
  (fst (Responce.has "Transfer-Encoding" w) = Ok true
   ∧ statuses_empty 200 = false
   ∧ fst (Responce.has "Content-Length" w) = Ok false)
  ∧ (∀ n, Responce.set_length n w = (Ok tt, w))
  ∧ fst (Responce.set_body (VString "hi") w) = Ok tt
  ∧ fst (Responce.get "Content-Length" w')
    = fst (Responce.get "Content-Length" w)
  ∧ (fst (Responce.has "Content-Length" w) = Ok false →
     fst (Responce.has "Content-Length" w') = Ok false).
Proof.
  split; [by vm_compute|].
  apply (C10_length_ignored_under_transfer_encoding
           Sample.chunked_response (VString "hi")); reflexivity.
Defined.

(** The first read of [URL] on a request without a Host header: the
    constructor throws on [http:///], the empty object is memoized, and
    the second read finds it. *)
Example URL_placeholder :
  let w' := snd (Request.URL Sample.fresh) in
  fst (Request.URL Sample.fresh) = Ok (Some 0%nat)
  ∧ heap w' = [EmptyObject]
  ∧ Request.URL w' = (Ok (Some 0%nat), w').
Proof. by vm_compute. Qed.

(** ** The further properties on concrete cycles *)

Lemma X1_witness :
  let keys := ["status"; "message"; "header"] in
  mentions "__proto__" keys = false
  ∧ ∃ own,
      Common.only Cases.summary keys = Common.Table own
      ∧ (∀ k, own !! k
              = if mentions k keys && negb (nullish (Cases.summary k))
                then Some (Cases.summary k) else None)
      ∧ (∀ k v, own !! k = Some v → nullish v = false).
Proof.
  split; [reflexivity|].
  apply (only_picks_defined_keys Cases.summary
           ["status"; "message"; "header"]).
  reflexivity.
Defined.

Lemma X2_witness :
  let w := Sample.fresh in
  let w' := snd (Common.getType "html" w) in
  coherent (typeLRUCache w)
  ∧ fst (Common.getType "html" w) = Ok (Some "text/html; charset=utf-8")
  ∧ coherent (typeLRUCache w')
  ∧ res w' = res w ∧ req w' = req w ∧ response w' = response w
  ∧ request w' = request w.
Proof.
  split; [apply coherent_new|].
  exact (getType_answers_as_the_package "html" Sample.fresh coherent_new).
Defined.

Lemma X3_witness :
  let w := Sample.referred in
  (Js.toLowerCase "REFERER" = "referer"
   ∨ Js.toLowerCase "REFERER" = "referrer")
  ∧ Request.get "REFERER" w = Request.get "Referrer" w
  ∧ Request.get "REFERER" w = Request.get "Referer" w
  ∧ Request.get "REFERER" w = (Ok "http://x/y", w).
Proof.
  split; [by left|].
  exact (request_get_referrer_alias "REFERER" Sample.referred
           (or_introl eq_refl)).
Defined.

Lemma X4_witness :
  let w := Sample.fresh in
  let sock := {| encrypted := false; remoteAddress := "127.0.0.1" |} in
  (socket (req w) = Some sock
   ∧ (encrypted sock = true ∨ proxy (app w) = false))
  ∧ Request.protocol w = (Ok "http", w)
  ∧ Request.secure w = (Ok false, w).
Proof.
  split; [by split; [|right]|].
  exact (protocol_decided_by_socket Sample.fresh
           {| encrypted := false; remoteAddress := "127.0.0.1" |}
           eq_refl (or_intror eq_refl)).
Defined.

Lemma X5_witness :
  let w := Cases.proxied
             (Sample.with_req_header "x-forwarded-proto" "https , http"
                Sample.fresh) in
  (proxy (app w) = true
   ∧ incoming "x-forwarded-proto" w = "https" +:+ " " +:+ String "," " http"
   ∧ plain "https" = true ∧ blank " " = true)
  ∧ Request.protocol w = (Ok "https", w).
Proof.
  split; [by vm_compute|].
  exact (proj1 (proj2 (protocol_behind_proxy
                         (Cases.proxied
                            (Sample.with_req_header "x-forwarded-proto"
                               "https , http" Sample.fresh))
                         {| encrypted := false;
                            remoteAddress := "127.0.0.1" |}
                         eq_refl eq_refl eq_refl))
           "https" " " " http" eq_refl eq_refl eq_refl).
Defined.

Lemma X6_witness :
  let w := Sample.with_req_header "x-forwarded-host" "evil.example"
             (Sample.with_req_header "host" "example.com, proxy.local"
                Sample.fresh) in
  (proxy (app w) = false ∧ httpVersionMajor (req w) < 2)
  ∧ Request.host w = (Ok "example.com", w).
Proof.
  split; [by vm_compute|].
  exact (proj2 (host_from_Host_header
                  (Sample.with_req_header "x-forwarded-host" "evil.example"
                     (Sample.with_req_header "host"
                        "example.com, proxy.local" Sample.fresh))
                  eq_refl eq_refl)
           "example.com" "" " proxy.local" eq_refl eq_refl eq_refl).
Defined.

Lemma X7_witness :
  let w := Cases.proxied
             (Sample.with_req_header "x-forwarded-host" "public.example"
                (Sample.with_req_header "host" "10.0.0.1:8080"
                   Sample.fresh)) in
  (proxy (app w) = true
   ∧ nonempty (incoming "x-forwarded-host" w) = true)
  ∧ Request.host w = (Ok "public.example", w).
Proof.
  split; [by vm_compute|].
  exact (proj1 (host_precedence
                  (Cases.proxied
                     (Sample.with_req_header "x-forwarded-host"
                        "public.example"
                        (Sample.with_req_header "host" "10.0.0.1:8080"
                           Sample.fresh))))
           eq_refl eq_refl).
Defined.

Lemma X8_witness :
  (let w := Cases.targeted "HTTP://example.com/a" Sample.fresh in
   Js.test_http_scheme (originalUrl (request w)) = true
   ∧ Request.href w = (Ok "HTTP://example.com/a", w))
  ∧ (let w := Cases.proxied
                (Sample.with_req_header "x-forwarded-proto" "https"
                   (Sample.with_req_header "host" "example.com"
                      (Cases.targeted "/a?b=1" Sample.fresh))) in
     Js.test_http_scheme (originalUrl (request w)) = false
     ∧ Request.href w = (Ok "https://example.com/a?b=1", w)).
Proof.
  split.
  - split; [reflexivity|].
    exact (proj1 (href_of_target
                    (Cases.targeted "HTTP://example.com/a" Sample.fresh))
             eq_refl).
  - split; [reflexivity|].
    destruct (proj1 (proj2 (href_of_target
                              (Cases.proxied
                                 (Sample.with_req_header "x-forwarded-proto"
                                    "https"
                                    (Sample.with_req_header "host"
                                       "example.com"
                                       (Cases.targeted "/a?b=1"
                                          Sample.fresh))))))
                eq_refl
                {| encrypted := false; remoteAddress := "127.0.0.1" |}
                eq_refl) as (p & h & Hp & Hh & Hr).
    apply (f_equal fst) in Hp, Hh. vm_compute in Hp, Hh.
    injection Hp as <-. injection Hh as <-. exact Hr.
Defined.

Lemma X9_witness :
  let w := Sample.with_req_header "host" "example.com:3000" Sample.fresh in
  (fst (Request.host w) = Ok "example.com:3000"
   ∧ Js.starts_with "[" "example.com:3000" = false)
  ∧ Request.hostname w = (Ok "example.com", w).
Proof.
  split; [by vm_compute|].
  exact (proj2 (proj2 (hostname_strips_port
                         (Sample.with_req_header "host" "example.com:3000"
                            Sample.fresh)
                         "example.com:3000" eq_refl eq_refl))
           "example.com" "3000" eq_refl eq_refl).
Defined.

Lemma X10_witness :
  let w := Sample.with_req_header "host" "[::1]:3000" Sample.fresh in
  let w' := snd (Request.URL w) in
  (fst (Request.host w) = Ok "[::1]:3000"
   ∧ Js.starts_with "[" "[::1]:3000" = true)
  ∧ ∃ a, memoizedURL (request w') = Some a
         ∧ Request.hostname w
           = (Ok (match heap w' !! a with
                  | Some (ParsedURL u) => hostname u
                  | _ => ""
                  end), w').
Proof.
  split; [by vm_compute|].
  exact (hostname_of_IPv6_literal
           (Sample.with_req_header "host" "[::1]:3000" Sample.fresh)
           "[::1]:3000" eq_refl eq_refl).
Defined.

Lemma X12_witness :
  let w := Sample.fresh in
  let w1 := snd (Request.accepts ["html"] w) in
  _accept (request w) = None
  ∧ fst (Request.accepts ["html"] w) = Ok (Some "html")
  ∧ _accept (request w1) = Some AcceptsReq
  ∧ Request.accepts ["json"] w1 = (Ok (Some "json"), w1)
  ∧ (∀ types,
       let w2 := snd (Request.set_accept (AcceptsCustom types) w1) in
       Request.accepts ["json"] w2 = (Ok (types ["json"]), w2)).
Proof.
  split; [reflexivity|].
  exact (accepts_negotiator_is_kept Sample.fresh ["html"] ["json"] eq_refl).
Defined.



Lemma X15_witness :
  let w := Sample.fresh in
  let w' := snd (Responce.set_length (of_Z 42) w) in
  (- 2 ^ 53 < 42 < 2 ^ 53
   ∧ headersSent (res w) = false
   ∧ fst (Responce.has "Transfer-Encoding" w) = Ok false)
  ∧ fst (Responce.set_length (of_Z 42) w) = Ok tt
  ∧ fst (Responce.get "Content-Length" w') = Ok (Some (HStr "42"))
  ∧ fst (Responce.length w') = Ok (Some (of_Z 42)).
Proof.
  split; [by vm_compute|].
  exact (length_round_trip 42 Sample.fresh ltac:(lia) eq_refl eq_refl).
Defined.

Lemma X16_witness :
  let w := Sample.fresh in
  let w' := snd (Responce.set_type "html" w) in
  (headersSent (res w) = false ∧ coherent (typeLRUCache w)
   ∧ field_text "text/html; charset=utf-8" = true)
  ∧ fst (Responce.set_type "html" w) = Ok tt
  ∧ fst (Responce.get "Content-Type" w')
    = Ok (Some (HStr "text/html; charset=utf-8"))
  ∧ fst (Responce.type w') = Ok "text/html".
Proof.
  split; [split; [reflexivity|split; [apply coherent_new|reflexivity]]|].
  pose proof (type_round_trip "html" Sample.fresh eq_refl coherent_new)
    as (Hknown & _).
  destruct (Hknown "text/html; charset=utf-8" eq_refl eq_refl eq_refl)
    as (Hok & Hget & Htype & _).
  split; [exact Hok|]. split; [exact Hget|exact Htype].
Defined.

Lemma X17_witness :
  let w := Cases.listed_type in
  (fst (Responce.get "Content-Type" w)
   = Ok (Some (HArr ["text/plain"; "text/html"]))
   ∧ statuses_empty (statusCode (res w)) = false)
  ∧ ∃ msg,
      Responce.type w = (Throw (TypeError msg), w)
      ∧ Responce.set_body VNull w
        = (Throw (TypeError msg), with_response (set__body VNull) w).
Proof.
  split; [by vm_compute|].
  exact (null_body_throws_on_listed_type ["text/plain"; "text/html"]
           Cases.listed_type eq_refl eq_refl).
Defined.


Lemma X19_witness :
  let w := Sample.fresh in
  let w1 := snd (Responce.set_status (of_Z 201) w) in
  let w2 := snd (Responce.set_body (VString "created") w1) in
  (headersSent (res w) = false ∧ statuses_empty 200 = false
   ∧ 100 ≤ 201 ≤ 999 ∧ _explicitStatus (response w) = false)
  ∧ fst (Responce.set_status (of_Z 201) w) = Ok tt
  ∧ fst (Responce.set_body (VString "created") w1) = Ok tt
  ∧ fst (Responce.status w2) = Ok 201
  ∧ fst (Responce.body w2) = Ok (VString "created")
  ∧ fst (Responce.status (snd (Responce.set_body (VString "created") w)))
    = Ok 200.
Proof.
  split; [by vm_compute|].
  pose proof (explicit_status_survives_body 201 (VString "created")
                Sample.fresh eq_refl eq_refl ltac:(lia) eq_refl)
    as (H1 & H2 & H3 & H4 & H5).
  do 4 (split; [assumption|]). exact (proj2 (H5 eq_refl)).
Defined.

Lemma X20_witness :
  let w := Sample.text_response in
  let w' := snd (Responce.set_body (VStream 7) w) in
  let w'' := snd (Responce.set_body (VStream 7) w') in
  (headersSent (res w) = false ∧ statuses_empty 200 = false
   ∧ fst (Responce.get "Content-Length" w) = Ok (Some (HStr "5")))
  ∧ (fst (Responce.set_body (VStream 7) w) = Ok tt
     ∧ finishListeners (res w') = [7%nat]
     ∧ errorHandlers w' = [7%nat]
     ∧ fst (Responce.get "Content-Length" w') = Ok None)
  ∧ (fst (Responce.set_body (VStream 7) w') = Ok tt
     ∧ finishListeners (res w'') = [7%nat; 7%nat]
     ∧ errorHandlers w'' = [7%nat]).
Proof.
  split; [by vm_compute|]. split.
  - exact (stream_body_registrations 7 Sample.text_response
             eq_refl eq_refl).
  - pose proof (stream_body_registrations 7
                  (snd (Responce.set_body (VStream 7) Sample.text_response))
                  eq_refl eq_refl) as (H1 & H2 & H3 & _).
    split; [exact H1|]. split; [exact H2|exact H3].
Defined.

Lemma X21_witness :
  let w := Cases.not_modified in
  let w' := snd (Responce.set_body VNull w) in
  (headersSent (res w) = false
   ∧ statuses_empty (statusCode (res w)) = true
   ∧ fst (Responce.type w) = Ok "application/json")
  ∧ fst (Responce.set_body VNull w) = Ok tt
  ∧ fst (Responce.status w') = Ok 304
  ∧ fst (Responce.body w') = Ok VNull
  ∧ fst (Responce.has "Content-Type" w') = Ok false
  ∧ fst (Responce.has "Content-Length" w') = Ok false
  ∧ fst (Responce.has "Transfer-Encoding" w') = Ok false
  ∧ _explicitNullBody (response w') = true.
Proof.
  split; [by vm_compute|].
  exact (no_body_on_empty_status VNull Cases.not_modified
           eq_refl eq_refl eq_refl).
Defined.

Lemma X22_witness :
  let w := Cases.renamed in
  let w' := snd (Responce.set_status (of_Z 200) w) in
  (headersSent (res w) = false ∧ 100 ≤ 200 ≤ 999
   ∧ httpVersionMajor (req w) < 2
   ∧ fst (Responce.message w) = Ok (Some "Nope"))
  ∧ fst (Responce.set_status (of_Z 200) w) = Ok tt
  ∧ statusMessage (res w') = Some "OK"
  ∧ fst (Responce.message w') = Ok (Some "OK").
Proof.
  split; [by vm_compute|].
  pose proof (status_sets_message 200 Cases.renamed eq_refl ltac:(lia))
    as (H1 & H2 & _).
  split; [exact H1|]. exact (H2 eq_refl).
Defined.

Lemma X24_witness :
  let w := Sample.typed_response in
  let w' := snd (Responce.set_status (of_Z 204) w) in
  (headersSent (res w) = false ∧ 100 ≤ 204 ≤ 999
   ∧ truthy (_body (response w)) = false ∧ statuses_empty 204 = true)
  ∧ fst (Responce.set_status (of_Z 204) w) = Ok tt
  ∧ fst (Responce.status w') = Ok 204
  ∧ outHeaders (res w') = outHeaders (res w)
  ∧ _body (response w') = _body (response w)
  ∧ _explicitStatus (response w') = true.
Proof.
  split; [by vm_compute|].
  exact (status_keeps_headers 204 Sample.typed_response eq_refl
           ltac:(lia) (or_introl eq_refl)).
Defined.

Lemma X25_witness :
  let w := Sample.fresh in
  let w1 := snd (Responce.append "Link" (VString "<a>") w) in
  let w2 := snd (Responce.append "Link" (VString "<b>") w1) in
  let w3 := snd (Responce.append "Link"
                   (VArray [VString "<c>"; VString "<d>"]) w2) in
  (headersSent (res w) = false ∧ http_token "Link" = true)
  ∧ fst (Responce.get "Link" w1) = Ok (Some (HStr "<a>"))
  ∧ fst (Responce.get "Link" w2) = Ok (Some (HArr ["<a>"; "<b>"]))
  ∧ fst (Responce.get "Link" w3)
    = Ok (Some (HArr ["<a>"; "<b>"; "<c>"; "<d>"])).
Proof.
  split; [by vm_compute|].
  split; [|split].
  - refine (proj2 (proj2 (append_accumulates "Link" (VString "<a>")
                            Sample.fresh) eq_refl eq_refl eq_refl _)).
    intros v Hv. vm_compute in Hv. discriminate Hv.
  - refine (proj2 (proj2 (append_accumulates "Link" (VString "<b>")
                            (snd (Responce.append "Link" (VString "<a>")
                                    Sample.fresh)))
                     eq_refl eq_refl eq_refl _)).
    intros v Hv. vm_compute in Hv. by injection Hv as <-.
  - refine (proj2 (proj2 (append_accumulates "Link"
                            (VArray [VString "<c>"; VString "<d>"])
                            (snd (Responce.append "Link" (VString "<b>")
                                    (snd (Responce.append "Link"
                                            (VString "<a>") Sample.fresh)))))
                     eq_refl eq_refl eq_refl _)).
    intros v Hv. vm_compute in Hv. by injection Hv as <-.
Defined.

Lemma X26_witness :
  let w := Sample.fresh in
  let w' := snd (Responce.set_etag "md5hashsum" w) in
  let tag := quot +:+ "md5hashsum" +:+ quot in
  (headersSent (res w) = false ∧ field_text "md5hashsum" = true)
  ∧ fst (Responce.set_etag "md5hashsum" w) = Ok tt
  ∧ fst (Responce.etag w') = Ok (Some (HStr tag))
  ∧ Js.test_etag_quoted tag = true
  ∧ field_text tag = true
  ∧ Responce.set_etag tag w' = (Ok tt, w').
Proof.
  split; [by vm_compute|].
  exact (etag_is_stored_quoted "md5hashsum" Sample.fresh eq_refl eq_refl).
Defined.
